(** * dnstest.py: the sampler, the aggregator and the domain sweep

    A shallow embedding of [test_dns] and [test_domains] of [dnstest.py].

    Conventions of the model.
    - The control flow, the exceptions and the statistics are modelled with
      Python floats idealised as real numbers ([R]).  The one non-real value
      that the script can produce, NumPy's [nan], is kept as a separate
      constructor ([NaN]).
    - Rounding is accounted for separately (section "Binary64 arithmetic"):
      on primitive binary64 floats for concrete runs, and through a rounding
      operator that obeys the standard model of floating-point arithmetic
      for the error bounds.
    - Exceptions are explicit: a computation returns [Ok v] or [Raise e].
    - The network is an oracle: the [k]-th call of [resolver.resolve] made by
      the process either answers after some elapsed time or raises.  The
      number of calls made so far is threaded as state.
    - Console output (progress bars, diagnostics, verbose summaries) is not
      modelled. *)

From Stdlib Require Import PrimFloat.
From Stdlib Require Import Reals Lra Lia String List Arith Bool.
Import ListNotations.
Set Warnings "-register-all".
Local Open Scope R_scope.

(** ** Values, exceptions, and the state-and-exception monad *)

(** A NumPy [float64] result: a real number or [nan]. *)
Inductive npfloat : Type :=
| Fin (x : R)
| NaN.

(** The Python values that flow between [test_dns] and [test_domains]. *)
Inductive value : Type :=
| VNone
| VFloat (x : R)
| VFloat64 (x : npfloat)
| VStr (s : string)
| VTuple (vs : list value).

Inductive exn : Type :=
| ZeroDivisionError
| ValueError
| TypeError.

Inductive result (A : Type) : Type :=
| Ok (a : A)
| Raise (e : exn).
Arguments Ok {A} a.
Arguments Raise {A} e.

(** State: the number of [resolver.resolve] calls issued so far. *)
Definition M (A : Type) : Type := nat -> result A * nat.

Definition ret {A : Type} (a : A) : M A := fun k => (Ok a, k).

Definition bind {A B : Type} (m : M A) (f : A -> M B) : M B :=
  fun k =>
    match m k with
    | (Ok a, k') => f a k'
    | (Raise e, k') => (Raise e, k')
    end.

Definition lift {A : Type} (r : result A) : M A := fun k => (r, k).

Definition rbind {A B : Type} (r : result A) (f : A -> result B) : result B :=
  match r with
  | Ok a => f a
  | Raise e => Raise e
  end.

Declare Scope py_scope.
Delimit Scope py_scope with py.
Notation "x <- m ;; f" := (bind m (fun x => f))
  (at level 61, m at next level, right associativity) : py_scope.
Notation "x <~ r ;; f" := (rbind r (fun x => f))
  (at level 61, r at next level, right associativity) : py_scope.
Local Open Scope py_scope.

(** ** The network *)

(** What one [resolver.resolve(domain)] call does: it answers [elapsed]
    seconds after [start_time] was taken, or it raises. *)
Inductive outcome : Type :=
| Resolved (elapsed : R)
| Failed.

(** [net dns_server domain k]: the outcome of the process's [k]-th call. *)
Definition network : Type := string -> string -> nat -> outcome.

Definition resolve (net : network) (dns_server domain : string) : M outcome :=
  fun k => (Ok (net dns_server domain k), S k).

(** ** Built-ins and library functions used by the script *)

(** Python's [sum]: a left fold starting from [0]. *)
Definition py_sum (xs : list R) : R := fold_left Rplus xs 0.

(** Python's [min] and [max]: [ValueError] on an empty sequence. *)
Definition py_min (xs : list R) : result R :=
  match xs with
  | [] => Raise ValueError
  | x :: tl => Ok (fold_left Rmin tl x)
  end.

Definition py_max (xs : list R) : result R :=
  match xs with
  | [] => Raise ValueError
  | x :: tl => Ok (fold_left Rmax tl x)
  end.

(** Python's true division of a float by an [int]. *)
Definition py_div (x : R) (n : nat) : result R :=
  if (n =? 0)%nat then Raise ZeroDivisionError else Ok (x / INR n).

(** [np.std(xs, ddof=1)]: the square root of the sum of squared deviations
    from the mean, divided by [len(xs) - 1].  NumPy divides by
    [max(len(xs) - 1, 0)]; with at most one element that is [0/0 = nan]
    (a warning, not an exception).  NumPy's own summation order differs
    from Python's [sum]; over the reals the two agree. *)
Definition arrmean (xs : list R) : R := py_sum xs / INR (length xs).

Definition sq_dev (xs : list R) : list R :=
  map (fun x => (x - arrmean xs) * (x - arrmean xs)) xs.

Definition np_std (xs : list R) : npfloat :=
  if (length xs <=? 1)%nat then NaN
  else Fin (sqrt (py_sum (sq_dev xs) / INR (length xs - 1))).

(** [std_dev / np.sqrt(n)].  Where the script evaluates it, [n >= 1]. *)
Definition std_err (std_dev : npfloat) (n : nat) : npfloat :=
  match std_dev with
  | Fin s => Fin (s / sqrt (INR n))
  | NaN => NaN
  end.

(** [stats.t.interval(0.95, df, loc=loc, scale=scale)].

    SciPy returns [(ppf(0.025), ppf(0.975))], where [ppf(q)] is
    [loc + scale * t(q, df)] when the arguments are valid, that is [df > 0],
    [scale > 0] and [loc] not [nan], and [nan] otherwise.  The quantile of
    Student's t distribution is a parameter: [t975 df] stands for
    [t(0.975, df)], and [t(0.025, df) = - t(0.975, df)] by symmetry of the
    distribution. *)
Definition t_interval (t975 : nat -> R) (df : nat) (loc : R) (scale : npfloat)
  : npfloat * npfloat :=
  match scale with
  | Fin s =>
      if (0 <? df)%nat then
        if Rlt_dec 0 s
        then (Fin (loc + s * - t975 df), Fin (loc + s * t975 df))
        else (NaN, NaN)
      else (NaN, NaN)
  | NaN => (NaN, NaN)
  end.

(** Tabulated upper 2.5% points of Student's t distribution, to three
    decimals, for 1 to 10 degrees of freedom, and the normal value 1.96
    beyond the table.  A concrete instance of the quantile parameter, used
    to run the model on examples. *)
Definition t975_table (df : nat) : R :=
  match df with
  | 0%nat => 0
  | 1%nat => 12706 / 1000
  | 2%nat => 4303 / 1000
  | 3%nat => 3182 / 1000
  | 4%nat => 2776 / 1000
  | 5%nat => 2571 / 1000
  | 6%nat => 2447 / 1000
  | 7%nat => 2365 / 1000
  | 8%nat => 2306 / 1000
  | 9%nat => 2262 / 1000
  | 10%nat => 2228 / 1000
  | _ => 196 / 100
  end.

(** ** The aggregator (lines 67-73 and 92-97) *)

Record stats : Type := mkStats {
  avg : R;
  mn : R;
  mx : R;
  ci : npfloat * npfloat
}.

(** [aggregate t975 times n]: the statistics of [times], where [n] is the
    count the script divides by ([num_measurements] in [test_dns],
    [len(overall_times)] in [test_domains]). *)
Definition aggregate (t975 : nat -> R) (times : list R) (n : nat) : result stats :=
  avg_time <~ py_div (py_sum times) n ;;
  min_time <~ py_min times ;;
  max_time <~ py_max times ;;
  let std_dev := np_std times in
  let se := std_err std_dev n in
  let confidence_interval := t_interval t975 (n - 1) avg_time se in
  Ok (mkStats avg_time min_time max_time confidence_interval).

(** ** The sampler: [test_dns] *)

(** The measurement loop of [test_dns] with [n] iterations left: [Some times]
    when every attempt answered, [None] at the first attempt that raised
    (the [except] branch, which returns at once). *)
Fixpoint sampling (net : network) (dns_server domain : string)
  (n : nat) (times : list R) : M (option (list R)) :=
  match n with
  | O => ret (Some times)
  | S n' =>
      o <- resolve net dns_server domain ;;
      match o with
      | Resolved elapsed =>
          sampling net dns_server domain n' (times ++ [elapsed * 1000])
      | Failed => ret None
      end
  end.

Definition interval_value (c : npfloat * npfloat) : value :=
  VTuple [VFloat64 (fst c); VFloat64 (snd c)].

Definition stats_value (s : stats) : value :=
  VTuple [VFloat (avg s); VFloat (mn s); VFloat (mx s); interval_value (ci s)].

(** The value of [return None, None, None]: a tuple of three. *)
Definition no_data : value := VTuple [VNone; VNone; VNone].

Definition test_dns (t975 : nat -> R) (net : network)
  (dns_server domain : string) (num_measurements : nat) : M value :=
  r <- sampling net dns_server domain num_measurements [] ;;
  match r with
  | None => ret no_data
  | Some times =>
      s <- lift (aggregate t975 times num_measurements) ;;
      ret (stats_value s)
  end.

(** ** The domain sweep: [test_domains] *)

(** [a, b, c, d = v]: the right-hand side must be a sequence of exactly four
    values, otherwise Python raises [ValueError] (wrong length) or
    [TypeError] (not iterable). *)
Definition unpack4 (v : value) : result (value * value * value * value) :=
  match v with
  | VTuple [a; b; c; d] => Ok (a, b, c, d)
  | VTuple _ => Raise ValueError
  | _ => Raise TypeError
  end.

Definition is_none (v : value) : bool :=
  match v with
  | VNone => true
  | _ => false
  end.

(** One entry of [domain_stats]:
    [(domain, avg_time, min_time, max_time, confidence_interval)]. *)
Record domain_stat : Type := mkDomainStat {
  ds_domain : string;
  ds_avg : value;
  ds_min : value;
  ds_max : value;
  ds_ci : value
}.

(** The loop of lines 83-90, carrying [overall_times] and [domain_stats]. *)
Fixpoint sweep (t975 : nat -> R) (net : network) (dns_server : string)
  (domains : list string) (num_measurements : nat)
  (overall_times : list value) (domain_stats : list domain_stat)
  : M (list value * list domain_stat) :=
  match domains with
  | [] => ret (overall_times, domain_stats)
  | domain :: rest =>
      r <- test_dns t975 net dns_server domain num_measurements ;;
      u <- lift (unpack4 r) ;;
      let '(avg_time, min_time, max_time, confidence_interval) := u in
      if is_none avg_time
      then sweep t975 net dns_server rest num_measurements
             overall_times domain_stats
      else sweep t975 net dns_server rest num_measurements
             (overall_times ++ [avg_time])
             (domain_stats ++
                [mkDomainStat domain avg_time min_time max_time
                   confidence_interval])
  end.

(** The numbers in a list of Python values, as [sum], [min] and [np.std]
    read them; anything that is not a float makes the arithmetic raise. *)
Fixpoint floats (vs : list value) : result (list R) :=
  match vs with
  | [] => Ok []
  | VFloat x :: tl => xs <~ floats tl ;; Ok (x :: xs)
  | _ :: _ => Raise TypeError
  end.

(** The result of [test_domains]:
    [(overall_avg, overall_min, overall_max, overall_confidence_interval,
      domain_stats)]. *)
Record sweep_result : Type := mkSweepResult {
  overall : stats;
  per_domain : list domain_stat
}.

Definition test_domains (t975 : nat -> R) (net : network)
  (dns_server : string) (domains : list string) (num_measurements : nat)
  (verbose : bool) : M sweep_result :=
  st <- sweep t975 net dns_server domains num_measurements [] [] ;;
  let '(overall_times, domain_stats) := st in
  xs <- lift (floats overall_times) ;;
  s <- lift (aggregate t975 xs (length overall_times)) ;;
  ret (mkSweepResult s domain_stats).

(** ** Vocabulary of the statements *)

(** The batch of [n] attempts that starts at call [k] answers every time. *)
Definition batch_ok (net : network) (dns_server domain : string)
  (n k : nat) : Prop :=
  forall j, (j < n)%nat -> net dns_server domain (k + j)%nat <> Failed.

(** Some attempt of the batch of [n] attempts that starts at call [k]
    raises. *)
Definition batch_fails (net : network) (dns_server domain : string)
  (n k : nat) : Prop :=
  exists j, (j < n)%nat /\ net dns_server domain (k + j)%nat = Failed.

(** Every domain of the list succeeds when the batches run one after the
    other from call [k] on. *)
Fixpoint all_succeed (net : network) (dns_server : string)
  (domains : list string) (n k : nat) : Prop :=
  match domains with
  | [] => True
  | domain :: rest =>
      batch_ok net dns_server domain n k /\
      all_succeed net dns_server rest n (k + n)
  end.

Definition np_sub (a b : npfloat) : npfloat :=
  match a, b with
  | Fin x, Fin y => Fin (x - y)
  | _, _ => NaN
  end.



(** Networks used in the examples. *)
Definition third_attempt_fails : network :=
  fun _ _ k => if (k =? 2)%nat then Failed else Resolved (2 / 100).

Definition resolver_down : network := fun _ _ _ => Failed.

Definition one_domain_down : network :=
  fun _ domain _ =>
    if String.eqb domain "microsoft.com" then Failed else Resolved (2 / 100).

Definition always_up : network := fun _ _ _ => Resolved (2 / 100).

(** ** The driver: [main], and the data that [plot_results] draws *)

Definition dns_providers : list string :=
  ["8.8.8.8"; "1.1.1.1"; "1.1.1.2"; "9.9.9.9"; "149.112.112.112";
   "9.9.9.11"; "193.110.81.0"; "185.253.5.0"; "185.222.222.222";
   "45.11.45.11"; "91.239.100.100"; "89.233.43.71"]%string.

Definition domains : list string :=
  ["google.com"; "apple.com"; "microsoft.com"; "netflix.com"; "youtube.com";
   "google.at"; "orf.at"; "tuwien.at"; "reddit.com"; "nasa.gov";
   "derstandard.at"; "bbc.com"; "diepresse.at"; "wikipedia.org";
   "twitch.tv"; "amazon.de"; "europa.eu"]%string.

Definition num_measurements : nat := 50.

(** The loop of [main] (lines 149-156), carrying [overall_stats] and
    [domain_stats].  An exception of [test_domains] is not caught. *)
Fixpoint main_loop (t975 : nat -> R) (net : network)
  (providers doms : list string) (n : nat) (verbose : bool)
  (overall_stats : list stats) (domain_stats : list (list domain_stat))
  : M (list stats * list (list domain_stat)) :=
  match providers with
  | [] => ret (overall_stats, domain_stats)
  | dns_server :: rest =>
      r <- test_domains t975 net dns_server doms n verbose ;;
      main_loop t975 net rest doms n verbose
        (overall_stats ++ [overall r]) (domain_stats ++ [per_domain r])
  end.

(** What [plot_results] hands to [plt.bar] and [plt.plot] for the overall
    chart (lines 105-117): labels, bar heights, the two rows of [yerr], and
    the confidence whiskers. *)
Record overall_chart : Type := mkOverallChart {
  oc_labels : list string;
  oc_heights : list R;
  oc_yerr_below : list R;
  oc_yerr_above : list R;
  oc_whiskers : list (npfloat * npfloat)
}.

Definition plot_overall (providers : list string) (overall_stats : list stats)
  : overall_chart :=
  mkOverallChart
    (map (fun provider => "DNS " ++ provider)%string providers)
    (map avg overall_stats)
    (map (fun s => avg s - mn s) overall_stats)
    (map (fun s => mx s - avg s) overall_stats)
    (map ci overall_stats).

(** One detail chart of the verbose branch (lines 125-141). *)
Record detail_chart : Type := mkDetailChart {
  dc_provider : string;
  dc_labels : list string;
  dc_heights : list value;
  dc_whiskers : list value
}.

(** The verbose loop over [enumerate(dns_providers)] from index [i] on;
    [None] when [domain_stats[i]] is out of range ([IndexError]). *)
Fixpoint plot_details (domain_stats : list (list domain_stat)) (i : nat)
  (providers : list string) : option (list detail_chart) :=
  match providers with
  | [] => Some []
  | provider :: rest =>
      match nth_error domain_stats i with
      | None => None
      | Some ds =>
          match plot_details domain_stats (S i) rest with
          | None => None
          | Some charts =>
              Some (mkDetailChart provider (map ds_domain ds) (map ds_avg ds)
                      (map ds_ci ds) :: charts)
          end
      end
  end.

Definition plot_results (providers : list string) (overall_stats : list stats)
  (domain_stats : list (list domain_stat)) (verbose : bool)
  : option (overall_chart * list detail_chart) :=
  let chart := plot_overall providers overall_stats in
  if verbose then
    match plot_details domain_stats 0 providers with
    | None => None
    | Some charts => Some (chart, charts)
    end
  else Some (chart, []).

Definition main (t975 : nat -> R) (net : network) (verbose : bool)
  : M (option (overall_chart * list detail_chart)) :=
  st <- main_loop t975 net dns_providers domains num_measurements verbose [] [] ;;
  ret (plot_results dns_providers (fst st) (snd st) verbose).

(** ** Further vocabulary *)

(** Attempt [j] of the batch is the first one that raises. *)
Definition first_failure (net : network) (dns_server domain : string)
  (n k j : nat) : Prop :=
  (j < n)%nat /\
  (forall i, (i < j)%nat -> net dns_server domain (k + i)%nat <> Failed) /\
  net dns_server domain (k + j)%nat = Failed.

(** The sample, in milliseconds, that call [i] contributes when it answers. *)
Definition sample_at (net : network) (dns_server domain : string) (i : nat) : R :=
  match net dns_server domain i with
  | Resolved elapsed => elapsed * 1000
  | Failed => 0
  end.

(** The samples of the batch of [n] attempts that starts at call [k]. *)
Definition samples_of (net : network) (dns_server domain : string)
  (k n : nat) : list R :=
  map (sample_at net dns_server domain) (seq k n).

(** The [domain_stats] entry built from a domain and its statistics. *)
Definition stat_entry (domain : string) (s : stats) : domain_stat :=
  mkDomainStat domain (VFloat (avg s)) (VFloat (mn s)) (VFloat (mx s))
    (interval_value (ci s)).

(** Every sweep of [main] succeeds, the sweeps running one after the other
    from call [k] on. *)
Fixpoint sweeps_succeed (net : network) (providers doms : list string)
  (n k : nat) : Prop :=
  match providers with
  | [] => True
  | dns_server :: rest =>
      all_succeed net dns_server doms n k /\
      sweeps_succeed net rest doms n (k + n * length doms)
  end.

(** [new] holds, domain by domain and in order, the entry built from the
    statistics of that domain's own batch, the batches running one after the
    other from call [k] on. *)
Fixpoint sweep_entries (t975 : nat -> R) (net : network) (dns_server : string)
  (doms : list string) (n k : nat) (new : list domain_stat) : Prop :=
  match doms, new with
  | [], [] => True
  | domain :: rest, e :: new' =>
      (exists s,
         aggregate t975 (samples_of net dns_server domain k n) n = Ok s /\
         e = stat_entry domain s) /\
      sweep_entries t975 net dns_server rest n (k + n) new'
  | _, _ => False
  end.

(** ** Binary64 arithmetic

    Python floats and NumPy [float64] values are binary64 numbers, and each
    arithmetic operation rounds its exact result to the nearest one.  Two
    views of lines 67-73 account for that.
    - [b64_*]: the operations on primitive binary64 floats, to run the
      script's arithmetic on concrete samples.
    - [fl_*]: each operation is the exact one followed by a rounding [rnd].
      The rounding is a parameter; what is assumed of it is stated where it
      is used (section [Rounding]). *)

(** The binary64 number nearest to 0.1, as Python reads the literal [0.1]. *)
Definition tenth : float := (0x1.999999999999ap-4)%float.

(** [float(n)] for an [int] [n]; exact below [2^53]. *)
Fixpoint b64_of_nat (n : nat) : float :=
  match n with
  | O => PrimFloat.zero
  | S k => PrimFloat.add (b64_of_nat k) PrimFloat.one
  end.

(** [sum(times)] on floats: a left-to-right loop from [0]. *)
Definition b64_sum (xs : list float) : float :=
  fold_left PrimFloat.add xs PrimFloat.zero.

(** [sum(times) / n] (lines 67 and 92). *)
Definition b64_avg (xs : list float) (n : nat) : result float :=
  if (n =? 0)%nat then Raise ZeroDivisionError
  else Ok (PrimFloat.div (b64_sum xs) (b64_of_nat n)).

(** [min(times)] and [max(times)]: the first extreme element is kept. *)
Definition b64_min (xs : list float) : result float :=
  match xs with
  | [] => Raise ValueError
  | x :: tl =>
      Ok (fold_left (fun m y => if PrimFloat.ltb y m then y else m) tl x)
  end.

Definition b64_max (xs : list float) : result float :=
  match xs with
  | [] => Raise ValueError
  | x :: tl =>
      Ok (fold_left (fun m y => if PrimFloat.ltb m y then y else m) tl x)
  end.

(** [sum(times)] with every addition rounded.  (This is the plain loop;
    CPython 3.12 and later carry a compensation term besides.) *)
Definition fl_sum (rnd : R -> R) (xs : list R) : R :=
  fold_left (fun acc x => rnd (acc + x)) xs 0.

(** [sum(times) / n] with the sum and the quotient rounded. *)
Definition fl_avg (rnd : R -> R) (xs : list R) (n : nat) : result R :=
  if (n =? 0)%nat then Raise ZeroDivisionError
  else Ok (rnd (fl_sum rnd xs / INR n)).

(** [stats.t.interval(0.95, df, loc=loc, scale=scale)] with rounding: SciPy
    evaluates [ppf(q) * scale + loc] in [float64] for each bound, the
    product and the sum being rounded.  [t025 df] and [t975 df] stand for
    the two quantiles that SciPy computes, [t(0.025, df)] and
    [t(0.975, df)]. *)
Definition fl_interval (rnd : R -> R) (t025 t975 : nat -> R) (df : nat)
  (loc : R) (scale : npfloat) : npfloat * npfloat :=
  match scale with
  | Fin s =>
      if (0 <? df)%nat then
        if Rlt_dec 0 s
        then (Fin (rnd (rnd (t025 df * s) + loc)),
              Fin (rnd (rnd (t975 df * s) + loc)))
        else (NaN, NaN)
      else (NaN, NaN)
  | NaN => (NaN, NaN)
  end.

(** A rounded subtraction of NumPy floats; [nan] propagates. *)
Definition fl_sub (rnd : R -> R) (a b : npfloat) : npfloat :=
  match a, b with
  | Fin x, Fin y => Fin (rnd (x - y))
  | _, _ => NaN
  end.

(** [abs(a - b) <= tol]; false when either side is [nan]. *)
Definition np_close (tol : R) (a b : npfloat) : Prop :=
  match a, b with
  | Fin x, Fin y => Rabs (x - y) <= tol
  | _, _ => False
  end.

(** A rounding with a relative error of exactly [1/16], used as a concrete
    instance of the rounding parameter. *)
Definition coarse_rnd (x : R) : R := x * (1 + / 16).

(** * Properties *)

(** ** Sums, minima and maxima of lists of reals *)

Lemma fold_left_Rplus_acc (xs : list R) (a : R) :
  fold_left Rplus xs a = a + fold_left Rplus xs 0.
Proof.
  revert a; induction xs as [|x xs IH]; intros a; simpl.
  - lra.
  - rewrite (IH (a + x)), (IH (0 + x)); lra.
Qed.

Lemma py_sum_nil : py_sum [] = 0.
Proof. reflexivity. Qed.

Lemma py_sum_cons (x : R) (xs : list R) : py_sum (x :: xs) = x + py_sum xs.
Proof.
  unfold py_sum; simpl. rewrite fold_left_Rplus_acc; lra.
Qed.

Lemma py_sum_lower (lo : R) (xs : list R) :
  Forall (fun x => lo <= x) xs -> INR (length xs) * lo <= py_sum xs.
Proof.
  induction 1 as [|x xs Hx _ IH].
  - rewrite py_sum_nil; simpl; lra.
  - rewrite py_sum_cons. change (length (x :: xs)) with (S (length xs)).
    rewrite S_INR; lra.
Qed.

Lemma py_sum_upper (hi : R) (xs : list R) :
  Forall (fun x => x <= hi) xs -> py_sum xs <= INR (length xs) * hi.
Proof.
  induction 1 as [|x xs Hx _ IH].
  - rewrite py_sum_nil; simpl; lra.
  - rewrite py_sum_cons. change (length (x :: xs)) with (S (length xs)).
    rewrite S_INR; lra.
Qed.

Lemma py_sum_nonneg (xs : list R) :
  Forall (fun x => 0 <= x) xs -> 0 <= py_sum xs.
Proof.
  intros H. apply py_sum_lower in H. lra.
Qed.

Lemma fold_left_Rmin_le (tl : list R) (x : R) :
  fold_left Rmin tl x <= x /\ Forall (fun y => fold_left Rmin tl x <= y) tl.
Proof.
  revert x; induction tl as [|y tl IH]; intros x; simpl.
  - split; [lra | constructor].
  - destruct (IH (Rmin x y)) as [Hacc Hall].
    pose proof (Rmin_l x y). pose proof (Rmin_r x y).
    split; [lra | constructor; [lra | exact Hall]].
Qed.

Lemma fold_left_Rmax_ge (tl : list R) (x : R) :
  x <= fold_left Rmax tl x /\ Forall (fun y => y <= fold_left Rmax tl x) tl.
Proof.
  revert x; induction tl as [|y tl IH]; intros x; simpl.
  - split; [lra | constructor].
  - destruct (IH (Rmax x y)) as [Hacc Hall].
    pose proof (Rmax_l x y). pose proof (Rmax_r x y).
    split; [lra | constructor; [lra | exact Hall]].
Qed.

Lemma py_min_lower (xs : list R) (m : R) :
  py_min xs = Ok m -> Forall (fun x => m <= x) xs.
Proof.
  destruct xs as [|x tl]; simpl; [discriminate|].
  intros [= <-]. destruct (fold_left_Rmin_le tl x). constructor; assumption.
Qed.

Lemma py_max_upper (xs : list R) (m : R) :
  py_max xs = Ok m -> Forall (fun x => x <= m) xs.
Proof.
  destruct xs as [|x tl]; simpl; [discriminate|].
  intros [= <-]. destruct (fold_left_Rmax_ge tl x). constructor; assumption.
Qed.

(** ** The aggregator returns on a non-empty sequence *)

Lemma aggregate_ok (t975 : nat -> R) (xs : list R) (n : nat) :
  xs <> [] -> n <> 0%nat ->
  exists m M,
    py_min xs = Ok m /\ py_max xs = Ok M /\
    aggregate t975 xs n =
      Ok (mkStats (py_sum xs / INR n) m M
            (t_interval t975 (n - 1) (py_sum xs / INR n)
               (std_err (np_std xs) n))).
Proof.
  intros Hxs Hn. destruct xs as [|x tl]; [congruence|].
  exists (fold_left Rmin tl x), (fold_left Rmax tl x).
  split; [reflexivity | split; [reflexivity|]].
  unfold aggregate, py_div.
  destruct (Nat.eqb_spec n 0); [contradiction | reflexivity].
Qed.

Lemma INR_pos (n : nat) : (1 <= n)%nat -> 0 < INR n.
Proof. intros H. apply lt_0_INR. lia. Qed.

(** ** The sample standard deviation *)

Lemma np_std_fin (xs : list R) :
  (2 <= length xs)%nat ->
  np_std xs = Fin (sqrt (py_sum (sq_dev xs) / INR (length xs - 1))).
Proof.
  intros H. unfold np_std.
  destruct (Nat.leb_spec (length xs) 1); [lia | reflexivity].
Qed.

Lemma sq_dev_nonneg (xs : list R) : Forall (fun y => 0 <= y) (sq_dev xs).
Proof.
  unfold sq_dev. apply Forall_map, Forall_forall. intros x _.
  cbv beta. apply Rle_0_sqr.
Qed.

Lemma py_sum_ge_term (ys : list R) (y : R) :
  Forall (fun z => 0 <= z) ys -> In y ys -> y <= py_sum ys.
Proof.
  induction 1 as [|z ys Hz Hys IH]; simpl; [tauto|].
  rewrite py_sum_cons. pose proof (py_sum_nonneg ys Hys).
  intros [-> | Hin]; [lra | specialize (IH Hin); lra].
Qed.

Lemma py_sum_zero (ys : list R) :
  Forall (fun z => z = 0) ys -> py_sum ys = 0.
Proof.
  induction 1 as [|z ys Hz _ IH]; [reflexivity|].
  rewrite py_sum_cons; lra.
Qed.

Lemma py_sum_const (c : R) (xs : list R) :
  Forall (fun x => x = c) xs -> py_sum xs = INR (length xs) * c.
Proof.
  induction 1 as [|x xs Hx _ IH]; [rewrite py_sum_nil; simpl; lra|].
  rewrite py_sum_cons. change (length (x :: xs)) with (S (length xs)).
  rewrite S_INR; lra.
Qed.

Lemma arrmean_const (c : R) (xs : list R) :
  (1 <= length xs)%nat -> Forall (fun x => x = c) xs -> arrmean xs = c.
Proof.
  intros Hlen Hc. unfold arrmean. rewrite (py_sum_const c xs Hc).
  pose proof (INR_pos _ Hlen). field. lra.
Qed.

Lemma sq_dev_const (c : R) (xs : list R) :
  (1 <= length xs)%nat -> Forall (fun x => x = c) xs ->
  py_sum (sq_dev xs) = 0.
Proof.
  intros Hlen Hc. apply py_sum_zero. unfold sq_dev.
  rewrite (arrmean_const c xs Hlen Hc).
  apply Forall_map. revert Hc. apply Forall_impl. intros x ->. lra.
Qed.

Lemma std_err_identical (c : R) (xs : list R) :
  (2 <= length xs)%nat -> Forall (fun x => x = c) xs ->
  np_std xs = Fin 0 /\ std_err (np_std xs) (length xs) = Fin 0.
Proof.
  intros Hlen Hc.
  assert (Hstd : np_std xs = Fin 0).
  { rewrite np_std_fin by exact Hlen.
    rewrite (sq_dev_const c xs) by (lia || exact Hc).
    unfold Rdiv. rewrite Rmult_0_l, sqrt_0. reflexivity. }
  split; [exact Hstd|]. rewrite Hstd. simpl. f_equal.
  unfold Rdiv. apply Rmult_0_l.
Qed.

(** The interval of identical samples: SciPy is given a scale of [0]. *)
Lemma aggregate_identical (t975 : nat -> R) (c : R) (xs : list R) :
  (2 <= length xs)%nat -> Forall (fun x => x = c) xs ->
  exists s,
    aggregate t975 xs (length xs) = Ok s /\
    avg s = c /\ ci s = (NaN, NaN).
Proof.
  intros Hlen Hc.
  assert (Hne : xs <> []) by (destruct xs; simpl in Hlen; [lia | discriminate]).
  assert (Hn : length xs <> 0%nat) by lia.
  destruct (aggregate_ok t975 xs (length xs) Hne Hn)
    as (m & M & _ & _ & Hagg).
  eexists; split; [exact Hagg|]. simpl. split.
  - apply (arrmean_const c xs); [lia | exact Hc].
  - destruct (std_err_identical c xs Hlen Hc) as [_ ->].
    unfold t_interval.
    destruct (0 <? length xs - 1)%nat; [|reflexivity].
    destruct (Rlt_dec 0 0) as [Hlt | _]; [lra | reflexivity].
Qed.

(** ** Zero variance *)


(** ** Square roots *)

Lemma sqrt_between (a b x : R) :
  0 <= a -> 0 <= b -> a * a < x -> x < b * b -> a < sqrt x < b.
Proof.
  intros Ha Hb Hax Hxb.
  assert (Hx : 0 <= x) by nra.
  split.
  - rewrite <- (sqrt_square a Ha). apply sqrt_lt_1; nra.
  - rewrite <- (sqrt_square b Hb). apply sqrt_lt_1; nra.
Qed.



(** ** The tabulated quantiles *)




Lemma t975_table_above_normal (df : nat) :
  (1 <= df)%nat -> 195 / 100 < t975_table df.
Proof.
  intros H. do 11 (destruct df as [|df]; [simpl; try lia; lra|]). simpl; lra.
Qed.

(** ** Properties that depend on the quantiles of Student's t *)

Section StudentT.

(** [t975 df]: the 0.975 quantile of Student's t distribution with [df]
    degrees of freedom.  It is positive, it does not increase with [df], and
    it stays above the normal quantile (1.9599...). *)
Variable t975 : nat -> R.
Hypothesis t975_pos : forall df, (1 <= df)%nat -> 0 < t975 df.
Hypothesis t975_mono :
  forall d1 d2, (1 <= d1)%nat -> (d1 <= d2)%nat -> t975 d2 <= t975 d1.
Hypothesis t975_above_normal : forall df, (1 <= df)%nat -> 195 / 100 < t975 df.



(** C10: there is a sequence of two strictly positive samples whose
    interval is finite with a lower bound below the sample minimum, and
    below zero. *)
Theorem interval_not_clamped :
  exists samples s lo hi,
    (2 <= length samples)%nat /\
    Forall (fun x => 0 < x) samples /\
    aggregate t975 samples (length samples) = Ok s /\
    ci s = (Fin lo, Fin hi) /\
    lo < mn s /\ lo < 0.
Proof using t975_above_normal.
  pose proof (t975_above_normal 1%nat ltac:(lia)) as Ht.
  assert (Hmean : arrmean [1; 100] = 101 / 2).
  { unfold arrmean, py_sum; simpl. lra. }
  assert (Hss : py_sum (sq_dev [1; 100]) = 2 * (99 / 2 * (99 / 2))).
  { unfold sq_dev. rewrite Hmean. unfold py_sum; simpl. lra. }
  assert (Hse : std_err (np_std [1; 100]) 2 = Fin (99 / 2)).
  { rewrite np_std_fin by (simpl; lia). rewrite Hss. simpl. f_equal.
    rewrite <- sqrt_div_alt by lra.
    replace (2 * (99 / 2 * (99 / 2)) / 1 / (1 + 1)) with (99 / 2 * (99 / 2))
      by lra.
    apply sqrt_square; lra. }
  exists [1; 100].
  eexists. exists (101 / 2 + 99 / 2 * - t975 1%nat), (101 / 2 + 99 / 2 * t975 1%nat).
  split; [simpl; lia|].
  split; [repeat constructor; lra|].
  split.
  - reflexivity.
  - cbn [ci mn]. change (length [1; 100]) with 2%nat. rewrite Hse.
    fold (arrmean [1; 100]).
    split.
    + unfold t_interval. simpl Nat.ltb. cbv iota.
      destruct (Rlt_dec 0 (99 / 2)); [|lra].
      change (py_sum [1; 100] / INR 2) with (arrmean [1; 100]).
      rewrite Hmean. reflexivity.
    + cbn [fold_left]. unfold Rmin. destruct (Rle_dec 1 100); split; lra.
Qed.

End StudentT.



Lemma interval_not_clamped_witness :
  exists samples s lo hi,
    (2 <= length samples)%nat /\
    Forall (fun x => 0 < x) samples /\
    aggregate t975_table samples (length samples) = Ok s /\
    ci s = (Fin lo, Fin hi) /\
    lo < mn s /\ lo < 0.
Proof.
  exact (interval_not_clamped t975_table t975_table_above_normal).
Defined.

(** ** The scenario of five samples *)

(** C4: on the samples [10, 20, 30, 40, 50] the aggregator returns mean 30,
    minimum 10 and maximum 50; the sample standard deviation rounds to
    15.81, the standard error to 7.07, and with a quantile of 2.776 for 4
    degrees of freedom the interval is [mean -/+ t * stderr] and rounds to
    [10.37, 49.63]. *)
Theorem scenario_five_samples (t975 : nat -> R) :
  27755 / 10000 <= t975 4%nat <= 27765 / 10000 ->
  exists s sd se lo hi,
    aggregate t975 [10; 20; 30; 40; 50] 5 = Ok s /\
    avg s = 30 /\ mn s = 10 /\ mx s = 50 /\
    np_std [10; 20; 30; 40; 50] = Fin sd /\
    Rabs (sd - 1581 / 100) < 5 / 1000 /\
    std_err (Fin sd) 5 = Fin se /\
    Rabs (se - 707 / 100) < 5 / 1000 /\
    ci s = (Fin lo, Fin hi) /\
    lo = 30 - t975 4%nat * se /\ hi = 30 + t975 4%nat * se /\
    Rabs (lo - 1037 / 100) < 5 / 1000 /\
    Rabs (hi - 4963 / 100) < 5 / 1000.
Proof.
  intros Ht.
  set (xs := [10; 20; 30; 40; 50]).
  assert (Hsum : py_sum xs / INR 5 = 30).
  { unfold py_sum, xs; simpl. lra. }
  assert (Hmean : arrmean xs = 30) by exact Hsum.
  assert (Hss : py_sum (sq_dev xs) = 1000).
  { unfold sq_dev. rewrite Hmean. unfold py_sum, xs; simpl. lra. }
  assert (Hstd : np_std xs = Fin (sqrt 250)).
  { rewrite np_std_fin by (simpl; lia). rewrite Hss.
    do 2 f_equal. simpl. lra. }
  assert (Hse : sqrt 250 / sqrt (INR 5) = sqrt 50).
  { rewrite <- sqrt_div_alt by (simpl; lra). f_equal. simpl. lra. }
  assert (Hsd_b : 15806 / 1000 < sqrt 250 < 15814 / 1000)
    by (apply sqrt_between; lra).
  assert (Hse_b : 70710 / 10000 < sqrt 50 < 70711 / 10000)
    by (apply sqrt_between; lra).
  exists (mkStats 30 10 50 (Fin (30 + sqrt 50 * - t975 4%nat),
                            Fin (30 + sqrt 50 * t975 4%nat))).
  exists (sqrt 250), (sqrt 50).
  exists (30 + sqrt 50 * - t975 4%nat), (30 + sqrt 50 * t975 4%nat).
  split.
  - unfold aggregate.
    change (py_div (py_sum xs) 5) with (Ok (py_sum xs / INR 5)).
    cbn [rbind]. rewrite Hsum.
    rewrite Hstd. cbn [std_err]. rewrite Hse.
    unfold t_interval. simpl Nat.ltb. cbv iota.
    destruct (Rlt_dec 0 (sqrt 50)); [|lra].
    unfold xs; simpl. f_equal. f_equal.
    + unfold Rmin. repeat (destruct (Rle_dec _ _); try lra).
    + unfold Rmax. repeat (destruct (Rle_dec _ _); try lra).
  - cbn [avg mn mx ci std_err]. rewrite Hse.
    repeat split; try reflexivity; try exact Hstd; try lra;
      apply Rabs_def1; nra.
Qed.

Lemma scenario_five_samples_witness :
  exists s sd se lo hi,
    aggregate t975_table [10; 20; 30; 40; 50] 5 = Ok s /\
    avg s = 30 /\ mn s = 10 /\ mx s = 50 /\
    np_std [10; 20; 30; 40; 50] = Fin sd /\
    Rabs (sd - 1581 / 100) < 5 / 1000 /\
    std_err (Fin sd) 5 = Fin se /\
    Rabs (se - 707 / 100) < 5 / 1000 /\
    ci s = (Fin lo, Fin hi) /\
    lo = 30 - t975_table 4 * se /\ hi = 30 + t975_table 4 * se /\
    Rabs (lo - 1037 / 100) < 5 / 1000 /\
    Rabs (hi - 4963 / 100) < 5 / 1000.
Proof.
  apply (scenario_five_samples t975_table). simpl. lra.
Defined.

(** ** The sampler *)

Lemma batch_ok_tail (net : network) (dns_server domain : string) (n k : nat) :
  batch_ok net dns_server domain (S n) k ->
  batch_ok net dns_server domain n (S k).
Proof.
  intros H j Hj. replace (S k + j)%nat with (k + S j)%nat by lia.
  apply H. lia.
Qed.

(** When every attempt answers, the loop collects one sample per attempt. *)
Lemma sampling_ok (net : network) (dns_server domain : string) (n : nat) :
  forall times k,
    batch_ok net dns_server domain n k ->
    exists xs,
      length xs = n /\
      sampling net dns_server domain n times k =
        (Ok (Some (times ++ xs)), (k + n)%nat).
Proof.
  induction n as [|n IH]; intros times k Hok.
  - exists []. split; [reflexivity|]. simpl. unfold ret.
    rewrite app_nil_r, Nat.add_0_r. reflexivity.
  - simpl. unfold bind, resolve.
    pose proof (Hok 0%nat ltac:(lia)) as H0. rewrite Nat.add_0_r in H0.
    destruct (net dns_server domain k) as [elapsed|] eqn:Hk; [|congruence].
    destruct (IH (times ++ [elapsed * 1000]) (S k) (batch_ok_tail _ _ _ _ _ Hok))
      as (xs & Hlen & Hrun).
    exists (elapsed * 1000 :: xs). split; [simpl; lia|].
    rewrite Hrun, <- app_assoc. simpl. do 2 f_equal. lia.
Qed.

(** When some attempt raises, the loop stops there with no samples kept. *)
Lemma sampling_fails (net : network) (dns_server domain : string) (n : nat) :
  forall times k,
    batch_fails net dns_server domain n k ->
    exists k', sampling net dns_server domain n times k = (Ok None, k').
Proof.
  induction n as [|n IH]; intros times k (j & Hj & Hfail); [lia|].
  simpl. unfold bind, resolve.
  destruct (net dns_server domain k) as [elapsed|] eqn:Hk.
  - apply IH. destruct j as [|j].
    + rewrite Nat.add_0_r in Hfail. congruence.
    + exists j. split; [lia|].
      replace (S k + j)%nat with (k + S j)%nat by lia. exact Hfail.
  - eexists. reflexivity.
Qed.

(** A failing batch: [test_dns] returns the three [None]s and no statistics
    are computed. *)
Lemma test_dns_no_data (t975 : nat -> R) (net : network)
  (dns_server domain : string) (n k : nat) :
  batch_fails net dns_server domain n k ->
  exists k', test_dns t975 net dns_server domain n k = (Ok no_data, k').
Proof.
  intros H. destruct (sampling_fails net dns_server domain n [] k H) as (k' & Hrun).
  exists k'. unfold test_dns, bind. rewrite Hrun. reflexivity.
Qed.

(** A batch of at least one attempt that all answer: [test_dns] returns the
    4-tuple of statistics. *)
Lemma test_dns_stats (t975 : nat -> R) (net : network)
  (dns_server domain : string) (n k : nat) :
  (1 <= n)%nat ->
  batch_ok net dns_server domain n k ->
  exists s,
    test_dns t975 net dns_server domain n k = (Ok (stats_value s), (k + n)%nat).
Proof.
  intros Hn H.
  destruct (sampling_ok net dns_server domain n [] k H) as (xs & Hlen & Hrun).
  assert (Hne : xs <> []) by (destruct xs; simpl in Hlen; [lia | discriminate]).
  destruct (aggregate_ok t975 xs n Hne ltac:(lia)) as (m & M & _ & _ & Hagg).
  eexists. unfold test_dns, bind, lift. rewrite Hrun. simpl app.
  rewrite Hagg. reflexivity.
Qed.

(** ** The sweep *)

Lemma sweep_cons_no_data (t975 : nat -> R) (net : network)
  (dns_server domain : string) (rest : list string) (n : nat)
  (ot : list value) (ds : list domain_stat) (k k' : nat) :
  test_dns t975 net dns_server domain n k = (Ok no_data, k') ->
  sweep t975 net dns_server (domain :: rest) n ot ds k = (Raise ValueError, k').
Proof.
  intros H. simpl. unfold bind. rewrite H. reflexivity.
Qed.

Lemma sweep_cons_stats (t975 : nat -> R) (net : network)
  (dns_server domain : string) (rest : list string) (n : nat)
  (ot : list value) (ds : list domain_stat) (k k' : nat) (s : stats) :
  test_dns t975 net dns_server domain n k = (Ok (stats_value s), k') ->
  sweep t975 net dns_server (domain :: rest) n ot ds k =
  sweep t975 net dns_server rest n
    (ot ++ [VFloat (avg s)])
    (ds ++ [mkDomainStat domain (VFloat (avg s)) (VFloat (mn s))
              (VFloat (mx s)) (interval_value (ci s))]) k'.
Proof.
  intros H. simpl. unfold bind. rewrite H. reflexivity.
Qed.

(** The state of the loop after a sweep in which every domain succeeds. *)
Lemma sweep_all_succeed (t975 : nat -> R) (net : network)
  (dns_server : string) (n : nat) (domains : list string) :
  (1 <= n)%nat ->
  forall ot ds k,
    all_succeed net dns_server domains n k ->
    exists means new k',
      sweep t975 net dns_server domains n ot ds k =
        (Ok (ot ++ map VFloat means, ds ++ new), k') /\
      map ds_domain new = domains /\
      map ds_avg new = map VFloat means.
Proof.
  intros Hn. induction domains as [|domain rest IH]; intros ot ds k Hall.
  - exists [], [], k. simpl. unfold ret. rewrite !app_nil_r. auto.
  - destruct Hall as [Hok Hrest].
    destruct (test_dns_stats t975 net dns_server domain n k Hn Hok) as (s & Hs).
    rewrite (sweep_cons_stats _ _ _ _ _ _ _ _ _ _ _ Hs).
    destruct (IH (ot ++ [VFloat (avg s)])
                 (ds ++ [mkDomainStat domain (VFloat (avg s)) (VFloat (mn s))
                           (VFloat (mx s)) (interval_value (ci s))])
                 (k + n)%nat Hrest)
      as (means & new & k' & Hrun & Hdom & Havg).
    exists (avg s :: means), (mkDomainStat domain (VFloat (avg s)) (VFloat (mn s))
                                (VFloat (mx s)) (interval_value (ci s)) :: new), k'.
    rewrite Hrun, <- !app_assoc. simpl. rewrite Hdom, Havg. auto.
Qed.

(** The sweep stops with [ValueError] at the first domain whose batch fails:
    the three [None]s cannot be unpacked into four names. *)
Lemma sweep_first_failure (t975 : nat -> R) (net : network)
  (dns_server : string) (n : nat) (pre : list string) :
  (1 <= n)%nat ->
  forall domain post ot ds k,
    all_succeed net dns_server pre n k ->
    batch_fails net dns_server domain n (k + n * length pre) ->
    exists k',
      sweep t975 net dns_server (pre ++ domain :: post) n ot ds k =
        (Raise ValueError, k').
Proof.
  intros Hn. induction pre as [|d pre IH]; intros domain post ot ds k Hall Hfail.
  - simpl in Hfail. rewrite Nat.mul_0_r, Nat.add_0_r in Hfail.
    destruct (test_dns_no_data t975 net dns_server domain n k Hfail) as (k' & Hk').
    exists k'. apply sweep_cons_no_data, Hk'.
  - destruct Hall as [Hok Hrest].
    destruct (test_dns_stats t975 net dns_server d n k Hn Hok) as (s & Hs).
    simpl app. rewrite (sweep_cons_stats _ _ _ _ _ _ _ _ _ _ _ Hs).
    apply IH; [exact Hrest|].
    replace (k + n + n * length pre)%nat with (k + n * length (d :: pre))%nat
      by (simpl; lia).
    exact Hfail.
Qed.

Lemma test_domains_first_failure (t975 : nat -> R) (net : network)
  (dns_server : string) (n : nat) (pre : list string)
  (domain : string) (post : list string) (verbose : bool) (k : nat) :
  (1 <= n)%nat ->
  all_succeed net dns_server pre n k ->
  batch_fails net dns_server domain n (k + n * length pre) ->
  fst (test_domains t975 net dns_server (pre ++ domain :: post) n verbose k)
    = Raise ValueError.
Proof.
  intros Hn Hall Hfail.
  destruct (sweep_first_failure t975 net dns_server n pre Hn domain post [] [] k
              Hall Hfail) as (k' & Hrun).
  unfold test_domains, bind. rewrite Hrun. reflexivity.
Qed.

Lemma floats_map_VFloat (xs : list R) : floats (map VFloat xs) = Ok xs.
Proof.
  induction xs as [|x xs IH]; [reflexivity|]. simpl. rewrite IH. reflexivity.
Qed.

(** ** Failed batches *)

Local Open Scope string_scope.

(** C1, on a batch of five attempts whose third raises: [test_dns] returns
    the three [None]s after three calls, with no statistics computed; but
    [test_domains] does not skip the pair: unpacking the three values into
    four names raises [ValueError], and the sweep returns nothing. *)
Theorem failed_batch_is_not_skipped (t975 : nat -> R) :
  test_dns t975 third_attempt_fails "8.8.8.8" "google.com" 5 0%nat
    = (Ok no_data, 3%nat) /\
  fst (test_domains t975 third_attempt_fails "8.8.8.8"
         ["google.com"; "apple.com"] 5 false 0%nat)
    = Raise ValueError.
Proof.
  split; reflexivity.
Qed.

(** C2, on a resolver that answers nothing: the sweep raises [ValueError]
    at the first domain, before the aggregation and its division are
    reached. *)
Theorem all_batches_fail_raises_value_error (t975 : nat -> R) :
  fst (test_domains t975 resolver_down "8.8.8.8"
         ["google.com"; "apple.com"] 50 false 0%nat)
    = Raise ValueError /\
  fst (test_domains t975 resolver_down "8.8.8.8"
         ["google.com"; "apple.com"] 50 false 0%nat)
    <> Raise ZeroDivisionError.
Proof.
  split; [reflexivity | discriminate].
Qed.

(** C3, on three domains of which the third fails: the first two batches
    yield statistics, the third yields the three [None]s, and the sweep
    raises [ValueError] instead of aggregating the two successful means. *)
Theorem failed_domain_aborts_the_aggregation (t975 : nat -> R) :
  (exists s, test_dns t975 one_domain_down "8.8.8.8" "google.com" 3 0%nat
               = (Ok (stats_value s), 3%nat)) /\
  (exists s, test_dns t975 one_domain_down "8.8.8.8" "apple.com" 3 3%nat
               = (Ok (stats_value s), 6%nat)) /\
  test_dns t975 one_domain_down "8.8.8.8" "microsoft.com" 3 6%nat
    = (Ok no_data, 7%nat) /\
  fst (test_domains t975 one_domain_down "8.8.8.8"
         ["google.com"; "apple.com"; "microsoft.com"] 3 false 0%nat)
    = Raise ValueError.
Proof.
  assert (Hup : forall d k, d <> "microsoft.com" ->
            batch_ok one_domain_down "8.8.8.8" d 3 k).
  { intros d k Hd j _. unfold one_domain_down.
    destruct (String.eqb_spec d "microsoft.com"); [contradiction | discriminate]. }
  split; [|split; [|split]].
  - apply (test_dns_stats t975 one_domain_down "8.8.8.8" "google.com" 3 0%nat);
      [lia | apply Hup; discriminate].
  - apply (test_dns_stats t975 one_domain_down "8.8.8.8" "apple.com" 3 3%nat);
      [lia | apply Hup; discriminate].
  - reflexivity.
  - apply (test_domains_first_failure t975 one_domain_down "8.8.8.8" 3
             ["google.com"; "apple.com"] "microsoft.com" [] false 0%nat).
    + lia.
    + simpl. repeat split; apply Hup; discriminate.
    + exists 0%nat. split; [lia | reflexivity].
Qed.

(** ** A sweep in which every domain succeeds *)

(** C9, as the code has it: for every non-empty domain list and at least one
    measurement per domain, if every batch succeeds then [test_domains]
    returns; [domain_stats] lists the domains in the order of the input;
    the recorded means are the entries of [overall_times], in order and in
    equal number; and the resolver-level mean is the arithmetic mean of the
    returned per-domain means. *)
Theorem sweep_keeps_order_and_means (t975 : nat -> R) (net : network)
  (dns_server : string) (domains : list string) (n : nat)
  (verbose : bool) (k : nat) :
  domains <> [] ->
  (1 <= n)%nat ->
  all_succeed net dns_server domains n k ->
  exists overall_times domain_stats means r k',
    sweep t975 net dns_server domains n [] [] k
      = (Ok (overall_times, domain_stats), k') /\
    test_domains t975 net dns_server domains n verbose k = (Ok r, k') /\
    per_domain r = domain_stats /\
    map ds_domain domain_stats = domains /\
    map ds_avg domain_stats = overall_times /\
    length domain_stats = length overall_times /\
    overall_times = map VFloat means /\
    avg (overall r) = py_sum means / INR (length means).
Proof.
  intros Hne Hn Hall.
  destruct (sweep_all_succeed t975 net dns_server n domains Hn [] [] k Hall)
    as (means & new & k' & Hrun & Hdom & Havg).
  simpl in Hrun.
  assert (Hlen : length means = length domains).
  { rewrite <- Hdom, length_map, <- (length_map ds_avg), Havg, length_map.
    reflexivity. }
  assert (Hmeans : means <> []).
  { destruct means; [|discriminate]. destruct domains; [congruence | discriminate]. }
  destruct (aggregate_ok t975 means (length (map VFloat means)) Hmeans)
    as (m & M & _ & _ & Hagg).
  { rewrite length_map. destruct means; [congruence | discriminate]. }
  exists (map VFloat means), new, means.
  eexists. exists k'.
  split; [exact Hrun|]. split.
  - unfold test_domains, bind, lift. rewrite Hrun.
    rewrite floats_map_VFloat, Hagg. reflexivity.
  - cbn [per_domain overall avg]. rewrite length_map.
    repeat split; try assumption.
    rewrite <- (length_map ds_avg new), Havg, length_map. reflexivity.
Qed.

Lemma sweep_keeps_order_and_means_witness :
  exists overall_times domain_stats means r k',
    sweep t975_table always_up "8.8.8.8" ["google.com"; "apple.com"] 2 [] [] 0%nat
      = (Ok (overall_times, domain_stats), k') /\
    test_domains t975_table always_up "8.8.8.8" ["google.com"; "apple.com"] 2
      false 0%nat = (Ok r, k') /\
    per_domain r = domain_stats /\
    map ds_domain domain_stats = ["google.com"; "apple.com"] /\
    map ds_avg domain_stats = overall_times /\
    length domain_stats = length overall_times /\
    overall_times = map VFloat means /\
    avg (overall r) = py_sum means / INR (length means).
Proof.
  apply (sweep_keeps_order_and_means t975_table always_up "8.8.8.8"
           ["google.com"; "apple.com"] 2 false 0%nat).
  - discriminate.
  - lia.
  - simpl. repeat split; intros j _; discriminate.
Defined.

(** C9, as stated, fails on the empty domain list: every domain of it
    succeeds, and [test_domains] divides by [len(overall_times) = 0]. *)
Lemma empty_sweep_divides_by_zero :
  all_succeed always_up "8.8.8.8" [] 50 0%nat /\
  test_domains t975_table always_up "8.8.8.8" [] 50 false 0%nat
    = (Raise ZeroDivisionError, 0%nat).
Proof.
  split; [exact I | reflexivity].
Qed.

(** * Further properties of the sampler *)

Local Open Scope list_scope.
Local Open Scope R_scope.

(** Every batch either answers throughout or has a first attempt that
    raises. *)
Lemma batch_cases (net : network) (dns_server domain : string) (n k : nat) :
  batch_ok net dns_server domain n k \/
  exists j, first_failure net dns_server domain n k j.
Proof.
  induction n as [|n [Hok | (j & Hj & Hbefore & Hat)]].
  - left. intros j Hj. lia.
  - destruct (net dns_server domain (k + n)%nat) as [elapsed|] eqn:Hn.
    + left. intros j Hj. destruct (Nat.eq_dec j n) as [-> | Hne].
      * congruence.
      * apply Hok. lia.
    + right. exists n. split; [lia | split; [|exact Hn]].
      intros i Hi. apply Hok, Hi.
  - right. exists j. split; [lia | split; assumption].
Qed.

Lemma first_failure_fails (net : network) (dns_server domain : string)
  (n k j : nat) :
  first_failure net dns_server domain n k j ->
  batch_fails net dns_server domain n k.
Proof. intros (Hj & _ & Hat). exists j; split; assumption. Qed.

Lemma batch_ok_not_fails (net : network) (dns_server domain : string)
  (n k : nat) :
  batch_ok net dns_server domain n k ->
  ~ batch_fails net dns_server domain n k.
Proof. intros Hok (j & Hj & Hat). exact (Hok j Hj Hat). Qed.

Lemma batch_fails_first (net : network) (dns_server domain : string)
  (n k : nat) :
  batch_fails net dns_server domain n k ->
  exists j, first_failure net dns_server domain n k j.
Proof.
  intros Hf. destruct (batch_cases net dns_server domain n k) as [Hok | H].
  - destruct (batch_ok_not_fails _ _ _ _ _ Hok Hf).
  - exact H.
Qed.

Lemma sampling_first_failure (net : network) (dns_server domain : string)
  (n : nat) :
  forall times k j,
    first_failure net dns_server domain n k j ->
    sampling net dns_server domain n times k = (Ok None, (k + S j)%nat).
Proof.
  induction n as [|n IH]; intros times k j (Hj & Hbefore & Hat); [lia|].
  simpl. unfold bind, resolve.
  destruct (net dns_server domain k) as [elapsed|] eqn:Hk.
  - destruct j as [|j].
    + rewrite Nat.add_0_r in Hat. congruence.
    + rewrite (IH _ (S k) j).
      * f_equal. lia.
      * split; [lia | split].
        -- intros i Hi. replace (S k + i)%nat with (k + S i)%nat by lia.
           apply Hbefore. lia.
        -- replace (S k + j)%nat with (k + S j)%nat by lia. exact Hat.
  - destruct j as [|j].
    + unfold ret. f_equal. lia.
    + exfalso. apply (Hbefore 0%nat); [lia|]. rewrite Nat.add_0_r. exact Hk.
Qed.

Lemma samples_of_length (net : network) (dns_server domain : string)
  (k n : nat) :
  length (samples_of net dns_server domain k n) = n.
Proof. unfold samples_of. rewrite length_map, length_seq. reflexivity. Qed.

Lemma sampling_samples (net : network) (dns_server domain : string) (n : nat) :
  forall times k,
    batch_ok net dns_server domain n k ->
    sampling net dns_server domain n times k =
      (Ok (Some (times ++ samples_of net dns_server domain k n)), (k + n)%nat).
Proof.
  induction n as [|n IH]; intros times k Hok.
  - simpl. unfold ret, samples_of. simpl.
    rewrite app_nil_r, Nat.add_0_r. reflexivity.
  - simpl. unfold bind, resolve.
    pose proof (Hok 0%nat ltac:(lia)) as H0. rewrite Nat.add_0_r in H0.
    destruct (net dns_server domain k) as [elapsed|] eqn:Hk; [|congruence].
    rewrite (IH _ (S k) (batch_ok_tail _ _ _ _ _ Hok)).
    unfold samples_of. simpl seq. simpl map. unfold sample_at at 2.
    rewrite Hk, <- app_assoc. simpl. do 2 f_equal. lia.
Qed.

Lemma test_dns_batch (t975 : nat -> R) (net : network)
  (dns_server domain : string) (n k : nat) :
  (1 <= n)%nat ->
  batch_ok net dns_server domain n k ->
  exists s,
    aggregate t975 (samples_of net dns_server domain k n) n = Ok s /\
    test_dns t975 net dns_server domain n k =
      (Ok (stats_value s), (k + n)%nat).
Proof.
  intros Hn Hok.
  assert (Hne : samples_of net dns_server domain k n <> []).
  { intros Heq. pose proof (samples_of_length net dns_server domain k n) as Hl.
    rewrite Heq in Hl. simpl in Hl. lia. }
  destruct (aggregate_ok t975 _ n Hne ltac:(lia)) as (m & M & _ & _ & Hagg).
  eexists. split; [exact Hagg|].
  unfold test_dns, bind, lift. rewrite (sampling_samples _ _ _ _ _ _ Hok).
  simpl app. rewrite Hagg. reflexivity.
Qed.

Lemma test_dns_first_failure (t975 : nat -> R) (net : network)
  (dns_server domain : string) (n k j : nat) :
  first_failure net dns_server domain n k j ->
  test_dns t975 net dns_server domain n k = (Ok no_data, (k + S j)%nat).
Proof.
  intros H. unfold test_dns, bind.
  rewrite (sampling_first_failure _ _ _ _ _ _ _ H). reflexivity.
Qed.

Lemma test_dns_zero (t975 : nat -> R) (net : network)
  (dns_server domain : string) (k : nat) :
  test_dns t975 net dns_server domain 0 k = (Raise ZeroDivisionError, k).
Proof. reflexivity. Qed.

(** X1: the sampler is fail-fast.  If attempt [j] of the batch is the first
    to raise, [test_dns] returns the three [None]s having issued exactly
    [j + 1] requests: none after the failure. *)
Theorem test_dns_stops_at_first_failure (t975 : nat -> R) (net : network)
  (dns_server domain : string) (n k j : nat) :
  first_failure net dns_server domain n k j ->
  test_dns t975 net dns_server domain n k = (Ok no_data, (k + (j + 1))%nat).
Proof.
  intros H. rewrite Nat.add_1_r. apply test_dns_first_failure, H.
Qed.

Lemma test_dns_stops_at_first_failure_witness :
  test_dns t975_table third_attempt_fails "8.8.8.8" "google.com" 50 0%nat
    = (Ok no_data, (0 + (2 + 1))%nat).
Proof.
  apply (test_dns_stops_at_first_failure t975_table third_attempt_fails
           "8.8.8.8" "google.com" 50 0 2).
  split; [lia | split].
  - intros i Hi. unfold third_attempt_fails.
    destruct (Nat.eqb_spec (0 + i) 2); [lia | discriminate].
  - reflexivity.
Defined.

(** X2: when all [n >= 1] attempts of a batch answer, [test_dns] issues
    exactly [n] requests and returns the statistics of the [n] elapsed times,
    converted to milliseconds and taken in the order of the attempts; the
    mean is their sum divided by [n]. *)
Theorem test_dns_returns_batch_statistics (t975 : nat -> R) (net : network)
  (dns_server domain : string) (n k : nat) :
  (1 <= n)%nat ->
  batch_ok net dns_server domain n k ->
  exists s,
    test_dns t975 net dns_server domain n k
      = (Ok (stats_value s), (k + n)%nat) /\
    aggregate t975 (samples_of net dns_server domain k n) n = Ok s /\
    length (samples_of net dns_server domain k n) = n /\
    avg s = py_sum (samples_of net dns_server domain k n) / INR n.
Proof.
  intros Hn Hok.
  destruct (test_dns_batch t975 net dns_server domain n k Hn Hok) as (s & Hagg & Hrun).
  exists s. split; [exact Hrun | split; [exact Hagg | split]].
  - apply samples_of_length.
  - unfold aggregate, py_div in Hagg.
    destruct (Nat.eqb_spec n 0); [lia|]. cbn [rbind] in Hagg.
    destruct (py_min _); [|discriminate]. destruct (py_max _); [|discriminate].
    cbn [rbind] in Hagg. injection Hagg as <-. reflexivity.
Qed.

Lemma test_dns_returns_batch_statistics_witness :
  exists s,
    test_dns t975_table always_up "8.8.8.8" "google.com" 3 0%nat
      = (Ok (stats_value s), (0 + 3)%nat) /\
    aggregate t975_table (samples_of always_up "8.8.8.8" "google.com" 0 3) 3
      = Ok s /\
    length (samples_of always_up "8.8.8.8" "google.com" 0 3) = 3%nat /\
    avg s = py_sum (samples_of always_up "8.8.8.8" "google.com" 0 3) / INR 3.
Proof.
  apply (test_dns_returns_batch_statistics t975_table always_up
           "8.8.8.8" "google.com" 3 0).
  - lia.
  - intros j _. discriminate.
Defined.

(** X3: [test_dns] raises exactly when [num_measurements] is [0]; the
    exception is then [ZeroDivisionError] (line 67) and no request has been
    issued.  With at least one measurement it always returns. *)
Theorem test_dns_raises_iff_no_measurements (t975 : nat -> R) (net : network)
  (dns_server domain : string) (n k : nat) :
  ((exists e k', test_dns t975 net dns_server domain n k = (Raise e, k'))
     <-> n = 0%nat) /\
  (forall e k', test_dns t975 net dns_server domain n k = (Raise e, k') ->
     e = ZeroDivisionError /\ k' = k).
Proof.
  assert (Hpos : (1 <= n)%nat ->
            exists v k', test_dns t975 net dns_server domain n k = (Ok v, k')).
  { intros Hn. destruct (batch_cases net dns_server domain n k) as [Hok | (j & Hj)].
    - destruct (test_dns_batch t975 _ _ _ _ _ Hn Hok) as (s & _ & Hrun).
      eauto.
    - rewrite (test_dns_first_failure t975 _ _ _ _ _ _ Hj). eauto. }
  split; [split|].
  - intros (e & k' & Hrun). destruct n as [|n]; [reflexivity|].
    destruct (Hpos ltac:(lia)) as (v & k'' & Hv). congruence.
  - intros ->. exists ZeroDivisionError, k. apply test_dns_zero.
  - intros e k' Hrun. destruct n as [|n].
    + rewrite test_dns_zero in Hrun. injection Hrun as <- <-. auto.
    + destruct (Hpos ltac:(lia)) as (v & k'' & Hv). congruence.
Qed.

(** * Further properties of the aggregator *)

Lemma fold_left_Rmin_in (tl : list R) (x : R) :
  In (fold_left Rmin tl x) (x :: tl).
Proof.
  revert x; induction tl as [|y tl IH]; intros x; simpl.
  - left; reflexivity.
  - destruct (IH (Rmin x y)) as [H | H].
    + unfold Rmin in H at 1. destruct (Rle_dec x y); auto.
    + right; right; exact H.
Qed.

Lemma fold_left_Rmax_in (tl : list R) (x : R) :
  In (fold_left Rmax tl x) (x :: tl).
Proof.
  revert x; induction tl as [|y tl IH]; intros x; simpl.
  - left; reflexivity.
  - destruct (IH (Rmax x y)) as [H | H].
    + unfold Rmax in H at 1. destruct (Rle_dec x y); auto.
    + right; right; exact H.
Qed.

(** The fields of the statistics that [aggregate] returns. *)
Lemma aggregate_inv (t975 : nat -> R) (xs : list R) (n : nat) (s : stats) :
  aggregate t975 xs n = Ok s ->
  n <> 0%nat /\
  avg s = py_sum xs / INR n /\
  py_min xs = Ok (mn s) /\
  py_max xs = Ok (mx s) /\
  ci s = t_interval t975 (n - 1) (py_sum xs / INR n) (std_err (np_std xs) n).
Proof.
  unfold aggregate, py_div. destruct (Nat.eqb_spec n 0); [discriminate|].
  cbn [rbind]. destruct (py_min xs) as [m|]; [|discriminate].
  destruct (py_max xs) as [M|]; [|discriminate]. cbn [rbind].
  intros [= <-]. simpl. auto.
Qed.

(** X4: a batch of a single measurement.  [test_dns] returns the sample as
    mean, minimum and maximum, and an interval whose bounds are both [nan]
    ([np.std] with [ddof=1] of one value, and zero degrees of freedom). *)
Theorem test_dns_single_measurement (t975 : nat -> R) (net : network)
  (dns_server domain : string) (k : nat) (elapsed : R) :
  net dns_server domain k = Resolved elapsed ->
  exists s,
    test_dns t975 net dns_server domain 1 k = (Ok (stats_value s), S k) /\
    avg s = elapsed * 1000 /\ mn s = elapsed * 1000 /\ mx s = elapsed * 1000 /\
    ci s = (NaN, NaN).
Proof.
  intros Hk.
  exists (mkStats (py_sum [elapsed * 1000] / INR 1) (elapsed * 1000)
            (elapsed * 1000) (NaN, NaN)).
  split.
  - unfold test_dns, bind, lift. simpl sampling. unfold bind, resolve, ret.
    rewrite Hk. reflexivity.
  - cbn [avg mn mx ci]. unfold py_sum. simpl.
    repeat split; try reflexivity. lra.
Qed.

Lemma test_dns_single_measurement_witness :
  exists s,
    test_dns t975_table always_up "8.8.8.8" "google.com" 1 7%nat
      = (Ok (stats_value s), 8%nat) /\
    avg s = 2 / 100 * 1000 /\ mn s = 2 / 100 * 1000 /\
    mx s = 2 / 100 * 1000 /\ ci s = (NaN, NaN).
Proof.
  apply (test_dns_single_measurement t975_table always_up "8.8.8.8"
           "google.com" 7 (2 / 100)).
  reflexivity.
Defined.

(** X5: on a non-empty sequence the minimum and the maximum that the
    aggregator reports are samples of the sequence, and every sample lies
    between them. *)
Theorem aggregate_extremes_are_samples (t975 : nat -> R) (xs : list R)
  (n : nat) :
  xs <> [] -> n <> 0%nat ->
  exists s,
    aggregate t975 xs n = Ok s /\
    In (mn s) xs /\ In (mx s) xs /\
    Forall (fun x => mn s <= x <= mx s) xs.
Proof.
  intros Hxs Hn.
  destruct (aggregate_ok t975 xs n Hxs Hn) as (m & M & Hmin & Hmax & Hagg).
  eexists. split; [exact Hagg|]. cbn [mn mx].
  pose proof (py_min_lower _ _ Hmin) as Hlo.
  pose proof (py_max_upper _ _ Hmax) as Hhi.
  destruct xs as [|x tl]; [congruence|].
  simpl in Hmin, Hmax. injection Hmin as <-. injection Hmax as <-.
  split; [apply fold_left_Rmin_in | split; [apply fold_left_Rmax_in|]].
  rewrite Forall_forall in *. intros y Hy. split; [apply Hlo | apply Hhi]; exact Hy.
Qed.

Lemma aggregate_extremes_are_samples_witness :
  exists s,
    aggregate t975_table [30; 10; 20] 3 = Ok s /\
    In (mn s) [30; 10; 20] /\ In (mx s) [30; 10; 20] /\
    Forall (fun x => mn s <= x <= mx s) [30; 10; 20].
Proof.
  apply (aggregate_extremes_are_samples t975_table [30; 10; 20] 3);
    discriminate.
Defined.

(** * Further properties of the domain sweep *)

Lemma sweep_entries_domains (t975 : nat -> R) (net : network)
  (dns_server : string) (n : nat) (doms : list string) :
  forall k new,
    sweep_entries t975 net dns_server doms n k new ->
    map ds_domain new = doms /\ length new = length doms.
Proof.
  induction doms as [|d rest IH]; intros k [|e new] H; simpl in H;
    try contradiction.
  - split; reflexivity.
  - destruct H as [(s & _ & ->) Hrest].
    destruct (IH _ _ Hrest) as [Hd Hl]. simpl. rewrite Hd, Hl. auto.
Qed.

(** The state of the loop after a sweep in which every batch succeeds. *)
Lemma sweep_succeeds_entries (t975 : nat -> R) (net : network)
  (dns_server : string) (n : nat) (doms : list string) :
  (1 <= n)%nat ->
  forall ot ds k,
    all_succeed net dns_server doms n k ->
    exists new means,
      sweep t975 net dns_server doms n ot ds k =
        (Ok (ot ++ map VFloat means, ds ++ new), (k + n * length doms)%nat) /\
      sweep_entries t975 net dns_server doms n k new /\
      map ds_avg new = map VFloat means.
Proof.
  intros Hn. induction doms as [|d rest IH]; intros ot ds k Hall.
  - exists [], []. simpl. unfold ret.
    rewrite !app_nil_r, Nat.mul_0_r, Nat.add_0_r. auto.
  - destruct Hall as [Hok Hrest].
    destruct (test_dns_batch t975 net dns_server d n k Hn Hok) as (s & Hagg & Hs).
    rewrite (sweep_cons_stats _ _ _ _ _ _ _ _ _ _ _ Hs).
    destruct (IH (ot ++ [VFloat (avg s)])
                 (ds ++ [mkDomainStat d (VFloat (avg s)) (VFloat (mn s))
                           (VFloat (mx s)) (interval_value (ci s))])
                 (k + n)%nat Hrest)
      as (new & means & Hrun & Hent & Havg).
    exists (stat_entry d s :: new), (avg s :: means).
    rewrite Hrun, <- !app_assoc. simpl. rewrite Havg.
    split; [|split; [split; [exists s; auto | exact Hent] | reflexivity]].
    unfold stat_entry. f_equal. lia.
Qed.

(** Either every batch of the sweep succeeds, or there is a first domain
    whose batch fails. *)
Lemma sweep_cases (net : network) (dns_server : string) (n : nat)
  (doms : list string) :
  forall k,
    all_succeed net dns_server doms n k \/
    exists pre d post,
      doms = pre ++ d :: post /\
      all_succeed net dns_server pre n k /\
      batch_fails net dns_server d n (k + n * length pre).
Proof.
  induction doms as [|d rest IH]; intros k; [left; exact I|].
  destruct (batch_cases net dns_server d n k) as [Hok | (j & Hj)].
  - destruct (IH (k + n)%nat) as [Hall | (pre & d' & post & -> & Hpre & Hfail)].
    + left. split; assumption.
    + right. exists (d :: pre), d', post.
      split; [reflexivity | split; [split; assumption|]].
      replace (k + n * length (d :: pre))%nat with (k + n + n * length pre)%nat
        by (simpl; lia).
      exact Hfail.
  - right. exists [], d, rest.
    split; [reflexivity | split; [exact I|]].
    simpl. rewrite Nat.mul_0_r, Nat.add_0_r.
    exact (first_failure_fails _ _ _ _ _ _ Hj).
Qed.

Lemma all_succeed_app (net : network) (dns_server : string) (n : nat)
  (pre : list string) :
  forall d post k,
    all_succeed net dns_server (pre ++ d :: post) n k ->
    batch_ok net dns_server d n (k + n * length pre).
Proof.
  induction pre as [|p pre IH]; intros d post k H; simpl in H.
  - simpl. rewrite Nat.mul_0_r, Nat.add_0_r. apply H.
  - destruct H as [_ H]. apply IH in H.
    replace (k + n * length (p :: pre))%nat with (k + n + n * length pre)%nat
      by (simpl; lia).
    exact H.
Qed.

Lemma test_domains_empty (t975 : nat -> R) (net : network)
  (dns_server : string) (n : nat) (verbose : bool) (k : nat) :
  test_domains t975 net dns_server [] n verbose k = (Raise ZeroDivisionError, k).
Proof. reflexivity. Qed.

Lemma test_domains_no_measurements (t975 : nat -> R) (net : network)
  (dns_server d : string) (rest : list string) (verbose : bool) (k : nat) :
  test_domains t975 net dns_server (d :: rest) 0 verbose k
    = (Raise ZeroDivisionError, k).
Proof. reflexivity. Qed.

(** The result of a sweep in which every batch succeeds. *)
Lemma test_domains_succeeds (t975 : nat -> R) (net : network)
  (dns_server : string) (doms : list string) (n : nat) (verbose : bool)
  (k : nat) :
  doms <> [] -> (1 <= n)%nat ->
  all_succeed net dns_server doms n k ->
  exists r means,
    test_domains t975 net dns_server doms n verbose k
      = (Ok r, (k + n * length doms)%nat) /\
    sweep_entries t975 net dns_server doms n k (per_domain r) /\
    map ds_avg (per_domain r) = map VFloat means /\
    aggregate t975 means (length means) = Ok (overall r).
Proof.
  intros Hne Hn Hall.
  destruct (sweep_succeeds_entries t975 net dns_server n doms Hn [] [] k Hall)
    as (new & means & Hrun & Hent & Havg).
  simpl in Hrun.
  assert (Hlen : length means = length doms).
  { destruct (sweep_entries_domains _ _ _ _ _ _ _ Hent) as [_ <-].
    rewrite <- (length_map ds_avg new), Havg, length_map. reflexivity. }
  assert (Hmeans : means <> []).
  { destruct means; [|discriminate]. destruct doms; [congruence | discriminate]. }
  destruct (aggregate_ok t975 means (length means) Hmeans) as (m & M & _ & _ & Hagg).
  { destruct means; [congruence | discriminate]. }
  eexists. exists means. split; [|split; [|split]].
  - unfold test_domains, bind, lift. rewrite Hrun.
    rewrite floats_map_VFloat, length_map, Hagg. reflexivity.
  - exact Hent.
  - exact Havg.
  - exact Hagg.
Qed.

(** The three outcomes of a sweep. *)
Lemma test_domains_cases (t975 : nat -> R) (net : network)
  (dns_server : string) (doms : list string) (n : nat) (verbose : bool)
  (k : nat) :
  ((doms = [] \/ n = 0%nat) /\
   test_domains t975 net dns_server doms n verbose k
     = (Raise ZeroDivisionError, k)) \/
  (doms <> [] /\ (1 <= n)%nat /\ all_succeed net dns_server doms n k /\
   exists r, test_domains t975 net dns_server doms n verbose k
               = (Ok r, (k + n * length doms)%nat)) \/
  ((1 <= n)%nat /\ ~ all_succeed net dns_server doms n k /\
   fst (test_domains t975 net dns_server doms n verbose k) = Raise ValueError).
Proof.
  destruct doms as [|d rest].
  - left. split; [left; reflexivity | apply test_domains_empty].
  - destruct n as [|n].
    + left. split; [right; reflexivity | apply test_domains_no_measurements].
    + right.
      destruct (sweep_cases net dns_server (S n) (d :: rest) k)
        as [Hall | (pre & d' & post & Heq & Hpre & Hfail)].
      * left. split; [discriminate | split; [lia | split; [exact Hall|]]].
        destruct (test_domains_succeeds t975 net dns_server (d :: rest) (S n)
                    verbose k ltac:(discriminate) ltac:(lia) Hall)
          as (r & _ & Hrun & _).
        exists r. exact Hrun.
      * right. split; [lia | split].
        -- intros Hall. rewrite Heq in Hall.
           apply all_succeed_app in Hall.
           exact (batch_ok_not_fails _ _ _ _ _ Hall Hfail).
        -- rewrite Heq.
           apply test_domains_first_failure; [lia | exact Hpre | exact Hfail].
Qed.

(** X9: [test_domains] returns exactly when the domain list is not empty,
    at least one measurement is asked for, and every batch succeeds.  When
    it returns, [domain_stats] has one entry per configured domain, in
    order: the branch that skips a failed domain is never taken. *)
Theorem test_domains_returns_iff (t975 : nat -> R) (net : network)
  (dns_server : string) (doms : list string) (n : nat) (verbose : bool)
  (k : nat) :
  ((exists r k', test_domains t975 net dns_server doms n verbose k = (Ok r, k'))
     <-> doms <> [] /\ (1 <= n)%nat /\ all_succeed net dns_server doms n k) /\
  (forall r k',
     test_domains t975 net dns_server doms n verbose k = (Ok r, k') ->
     map ds_domain (per_domain r) = doms /\
     k' = (k + n * length doms)%nat).
Proof.
  split; [split|].
  - intros (r & k' & Hrun).
    destruct (test_domains_cases t975 net dns_server doms n verbose k)
      as [[_ H] | [(Hne & Hn & Hall & _) | (_ & _ & H)]].
    + congruence.
    + auto.
    + rewrite Hrun in H. discriminate.
  - intros (Hne & Hn & Hall).
    destruct (test_domains_succeeds t975 net dns_server doms n verbose k
                Hne Hn Hall) as (r & _ & Hrun & _).
    eauto.
  - intros r k' Hrun.
    destruct (test_domains_cases t975 net dns_server doms n verbose k)
      as [[_ H] | [(Hne & Hn & Hall & _) | (_ & _ & H)]].
    + congruence.
    + destruct (test_domains_succeeds t975 net dns_server doms n verbose k
                  Hne Hn Hall) as (r' & _ & Hrun' & Hent & _).
      rewrite Hrun in Hrun'. injection Hrun' as <- <-.
      split; [|reflexivity].
      apply (sweep_entries_domains _ _ _ _ _ _ _ Hent).
    + rewrite Hrun in H. discriminate.
Qed.

(** X10: the exceptions of [test_domains].  It raises [ZeroDivisionError]
    exactly when the domain list is empty or no measurement is asked for,
    [ValueError] exactly when at least one measurement is asked for and some
    batch fails, and never [TypeError]. *)
Theorem test_domains_exceptions (t975 : nat -> R) (net : network)
  (dns_server : string) (doms : list string) (n : nat) (verbose : bool)
  (k : nat) :
  (fst (test_domains t975 net dns_server doms n verbose k)
     = Raise ZeroDivisionError <-> doms = [] \/ n = 0%nat) /\
  (fst (test_domains t975 net dns_server doms n verbose k)
     = Raise ValueError
     <-> (1 <= n)%nat /\ ~ all_succeed net dns_server doms n k) /\
  fst (test_domains t975 net dns_server doms n verbose k) <> Raise TypeError.
Proof.
  destruct (test_domains_cases t975 net dns_server doms n verbose k)
    as [[Hz H] | [(Hne & Hn & Hall & r & H) | (Hn & Hnot & H)]].
  - rewrite H. simpl. split; [|split].
    + tauto.
    + split; [discriminate|]. intros [Hn Hnot].
      destruct Hz as [-> | ->]; [destruct (Hnot I) | lia].
    + discriminate.
  - rewrite H. simpl. split; [|split].
    + split; [discriminate|]. intros [-> | ->]; [congruence | lia].
    + split; [discriminate|]. intros [_ Hnot]. destruct (Hnot Hall).
    + discriminate.
  - rewrite H. split; [|split].
    + split; [discriminate|]. intros [-> | ->]; [destruct (Hnot I) | lia].
    + tauto.
    + discriminate.
Qed.

(** X11: a sweep in which every batch succeeds issues exactly
    [n * len(domains)] requests; each entry of [domain_stats] holds the
    statistics of its own domain's batch; and the resolver-level statistics
    are those of the per-domain means, with the number of domains as
    count. *)
Theorem test_domains_success (t975 : nat -> R) (net : network)
  (dns_server : string) (doms : list string) (n : nat) (verbose : bool)
  (k : nat) :
  doms <> [] -> (1 <= n)%nat ->
  all_succeed net dns_server doms n k ->
  exists r means,
    test_domains t975 net dns_server doms n verbose k
      = (Ok r, (k + n * length doms)%nat) /\
    sweep_entries t975 net dns_server doms n k (per_domain r) /\
    length (per_domain r) = length doms /\
    map ds_avg (per_domain r) = map VFloat means /\
    aggregate t975 means (length doms) = Ok (overall r).
Proof.
  intros Hne Hn Hall.
  destruct (test_domains_succeeds t975 net dns_server doms n verbose k
              Hne Hn Hall) as (r & means & Hrun & Hent & Havg & Hagg).
  exists r, means.
  destruct (sweep_entries_domains _ _ _ _ _ _ _ Hent) as [_ Hlen].
  repeat split; try assumption.
  assert (Hm : length means = length doms).
  { rewrite <- Hlen, <- (length_map ds_avg (per_domain r)), Havg, length_map.
    reflexivity. }
  rewrite <- Hm. exact Hagg.
Qed.

Lemma test_domains_success_witness :
  exists r means,
    test_domains t975_table always_up "8.8.8.8" ["google.com"; "apple.com"] 3
      false 0%nat
      = (Ok r, (0 + 3 * length ["google.com"; "apple.com"])%nat) /\
    sweep_entries t975_table always_up "8.8.8.8" ["google.com"; "apple.com"]
      3 0 (per_domain r) /\
    length (per_domain r) = length ["google.com"; "apple.com"] /\
    map ds_avg (per_domain r) = map VFloat means /\
    aggregate t975_table means (length ["google.com"; "apple.com"])
      = Ok (overall r).
Proof.
  apply (test_domains_success t975_table always_up "8.8.8.8"
           ["google.com"; "apple.com"] 3 false 0).
  - discriminate.
  - lia.
  - simpl. repeat split; intros j _; discriminate.
Defined.

(** X12: the resolver-level extremes are extremes of means.  Whenever
    [test_domains] returns, its overall minimum is the recorded mean of one
    of the [domain_stats] entries, and so is its overall maximum: neither is
    a minimum or maximum over the raw samples. *)
Theorem overall_extremes_are_domain_means (t975 : nat -> R) (net : network)
  (dns_server : string) (doms : list string) (n : nat) (verbose : bool)
  (k k' : nat) (r : sweep_result) :
  test_domains t975 net dns_server doms n verbose k = (Ok r, k') ->
  (exists e, In e (per_domain r) /\ ds_avg e = VFloat (mn (overall r))) /\
  (exists e, In e (per_domain r) /\ ds_avg e = VFloat (mx (overall r))).
Proof.
  intros Hrun.
  destruct (test_domains_cases t975 net dns_server doms n verbose k)
    as [[_ H] | [(Hne & Hn & Hall & _) | (_ & _ & H)]];
    [congruence | | rewrite Hrun in H; discriminate].
  destruct (test_domains_succeeds t975 net dns_server doms n verbose k
              Hne Hn Hall) as (r' & means & Hrun' & _ & Havg & Hagg).
  rewrite Hrun in Hrun'. injection Hrun' as <- _.
  assert (Hfind : forall m, In m means ->
            exists e, In e (per_domain r) /\ ds_avg e = VFloat m).
  { intros m Hm.
    assert (Hin : In (VFloat m) (map ds_avg (per_domain r))).
    { rewrite Havg. apply in_map, Hm. }
    apply in_map_iff in Hin. destruct Hin as (e & He & Hine).
    exists e. split; assumption. }
  destruct (aggregate_inv _ _ _ _ Hagg) as (_ & _ & Hmin & Hmax & _).
  destruct means as [|m0 tl]; [discriminate|].
  simpl in Hmin, Hmax. injection Hmin as Hmin. injection Hmax as Hmax.
  split; apply Hfind.
  - rewrite <- Hmin. apply fold_left_Rmin_in.
  - rewrite <- Hmax. apply fold_left_Rmax_in.
Qed.

Lemma overall_extremes_are_domain_means_witness :
  exists r k',
    test_domains t975_table always_up "8.8.8.8" ["google.com"; "apple.com"] 3
      false 0%nat = (Ok r, k') /\
    (exists e, In e (per_domain r) /\ ds_avg e = VFloat (mn (overall r))) /\
    (exists e, In e (per_domain r) /\ ds_avg e = VFloat (mx (overall r))).
Proof.
  eexists. eexists. split; [reflexivity|].
  eapply (overall_extremes_are_domain_means t975_table always_up "8.8.8.8"
            ["google.com"; "apple.com"] 3 false 0).
  reflexivity.
Defined.

(** X13: a sweep over a single domain.  The resolver-level mean, minimum
    and maximum all equal that domain's mean, and the resolver-level
    interval is [(nan, nan)]. *)
Theorem single_domain_sweep (t975 : nat -> R) (net : network)
  (dns_server d : string) (n : nat) (verbose : bool) (k : nat) :
  (1 <= n)%nat ->
  batch_ok net dns_server d n k ->
  exists r s,
    test_domains t975 net dns_server [d] n verbose k = (Ok r, (k + n)%nat) /\
    aggregate t975 (samples_of net dns_server d k n) n = Ok s /\
    per_domain r = [stat_entry d s] /\
    avg (overall r) = avg s /\ mn (overall r) = avg s /\
    mx (overall r) = avg s /\ ci (overall r) = (NaN, NaN).
Proof.
  intros Hn Hok.
  destruct (test_dns_batch t975 net dns_server d n k Hn Hok) as (s & Hagg & Hs).
  exists (mkSweepResult (mkStats (py_sum [avg s] / INR 1) (avg s) (avg s)
                           (NaN, NaN)) [stat_entry d s]), s.
  split; [|split; [exact Hagg | split; [reflexivity|]]].
  - unfold test_domains, bind, lift. rewrite (sweep_cons_stats _ _ _ _ _ _ _ _ _ _ _ Hs).
    reflexivity.
  - cbn [overall per_domain avg mn mx ci]. unfold py_sum. simpl.
    repeat split; try reflexivity. lra.
Qed.

Lemma single_domain_sweep_witness :
  exists r s,
    test_domains t975_table always_up "8.8.8.8" ["google.com"] 3 false 0%nat
      = (Ok r, (0 + 3)%nat) /\
    aggregate t975_table (samples_of always_up "8.8.8.8" "google.com" 0 3) 3
      = Ok s /\
    per_domain r = [stat_entry "google.com" s] /\
    avg (overall r) = avg s /\ mn (overall r) = avg s /\
    mx (overall r) = avg s /\ ci (overall r) = (NaN, NaN).
Proof.
  apply (single_domain_sweep t975_table always_up "8.8.8.8" "google.com" 3
           false 0).
  - lia.
  - intros j _. discriminate.
Defined.

(** * The driver and the plotted data *)

Lemma main_loop_cons_ok (t975 : nat -> R) (net : network)
  (p : string) (rest doms : list string) (n : nat) (verbose : bool)
  (os : list stats) (dss : list (list domain_stat)) (k k' : nat)
  (r : sweep_result) :
  test_domains t975 net p doms n verbose k = (Ok r, k') ->
  main_loop t975 net (p :: rest) doms n verbose os dss k =
  main_loop t975 net rest doms n verbose
    (os ++ [overall r]) (dss ++ [per_domain r]) k'.
Proof. intros H. simpl. unfold bind. rewrite H. reflexivity. Qed.

Lemma main_loop_cons_raise (t975 : nat -> R) (net : network)
  (p : string) (rest doms : list string) (n : nat) (verbose : bool)
  (os : list stats) (dss : list (list domain_stat)) (k : nat) (e : exn) :
  fst (test_domains t975 net p doms n verbose k) = Raise e ->
  fst (main_loop t975 net (p :: rest) doms n verbose os dss k) = Raise e.
Proof.
  intros H. simpl. unfold bind.
  destruct (test_domains t975 net p doms n verbose k) as [[r|e'] k'];
    simpl in H; [discriminate|].
  injection H as ->. reflexivity.
Qed.

(** The state of [main]'s loop when every sweep succeeds. *)
Lemma main_loop_succeeds (t975 : nat -> R) (net : network)
  (doms : list string) (n : nat) (verbose : bool) (providers : list string) :
  doms <> [] -> (1 <= n)%nat ->
  forall os dss k,
    sweeps_succeed net providers doms n k ->
    exists rs,
      main_loop t975 net providers doms n verbose os dss k =
        (Ok (os ++ map overall rs, dss ++ map per_domain rs),
         (k + length providers * (n * length doms))%nat) /\
      length rs = length providers /\
      Forall (fun r => map ds_domain (per_domain r) = doms) rs.
Proof.
  intros Hne Hn. induction providers as [|p rest IH]; intros os dss k Hall.
  - exists []. simpl. unfold ret. rewrite !app_nil_r, Nat.add_0_r. auto.
  - destruct Hall as [Hp Hrest].
    destruct (test_domains_succeeds t975 net p doms n verbose k Hne Hn Hp)
      as (r & means & Hrun & Hent & _ & _).
    rewrite (main_loop_cons_ok _ _ _ _ _ _ _ _ _ _ _ _ Hrun).
    destruct (IH (os ++ [overall r]) (dss ++ [per_domain r]) _ Hrest)
      as (rs & Hloop & Hlen & Hall).
    exists (r :: rs). rewrite Hloop, <- !app_assoc. simpl.
    split; [f_equal; lia | split; [lia|]].
    constructor; [|exact Hall].
    apply (sweep_entries_domains _ _ _ _ _ _ _ Hent).
Qed.

(** With a non-empty domain list and at least one measurement, [main]'s
    loop raises [ValueError] unless every sweep succeeds. *)
Lemma main_loop_cases (t975 : nat -> R) (net : network)
  (doms : list string) (n : nat) (verbose : bool) (providers : list string) :
  doms <> [] -> (1 <= n)%nat ->
  forall os dss k,
    sweeps_succeed net providers doms n k \/
    (~ sweeps_succeed net providers doms n k /\
     fst (main_loop t975 net providers doms n verbose os dss k)
       = Raise ValueError).
Proof.
  intros Hne Hn. induction providers as [|p rest IH]; intros os dss k.
  - left. exact I.
  - destruct (test_domains_cases t975 net p doms n verbose k)
      as [[[-> | ->] _] | [(_ & _ & Hall & r & Hrun) | (_ & Hnot & Hrun)]];
      [congruence | lia | |].
    + rewrite (main_loop_cons_ok _ _ _ _ _ _ _ _ _ _ _ _ Hrun).
      destruct (IH (os ++ [overall r]) (dss ++ [per_domain r])
                  (k + n * length doms)%nat) as [Hrest | [Hnot Hraise]].
      * left. split; assumption.
      * right. split; [|exact Hraise]. intros [_ H]. exact (Hnot H).
    + right. split; [intros [H _]; exact (Hnot H)|].
      apply main_loop_cons_raise, Hrun.
Qed.

Lemma plot_details_none_iff (dss : list (list domain_stat))
  (providers : list string) :
  forall i,
    plot_details dss i providers = None <->
    providers <> [] /\ (length dss < i + length providers)%nat.
Proof.
  induction providers as [|p rest IH]; intros i; simpl.
  - split; [discriminate | intros [H _]; congruence].
  - destruct (nth_error dss i) as [ds|] eqn:Hnth.
    + assert (Hi : (i < length dss)%nat)
        by (apply nth_error_Some; congruence).
      specialize (IH (S i)).
      destruct (plot_details dss (S i) rest) as [charts|].
      * split; [discriminate|]. intros [_ Hlt]. exfalso.
        destruct IH as [_ IH]. destruct rest as [|q rest].
        -- simpl in Hlt. lia.
        -- assert (Hnone : Some charts = None)
             by (apply IH; split; [discriminate | simpl in *; lia]).
           discriminate.
      * split; [|reflexivity]. intros _.
        destruct IH as [IH _]. destruct (IH eq_refl) as [_ Hl].
        split; [discriminate | lia].
    + apply nth_error_None in Hnth. split; [|reflexivity].
      intros _. split; [discriminate | lia].
Qed.

Lemma plot_details_some (doms : list string)
  (dss : list (list domain_stat)) (providers : list string) :
  Forall (fun ds => map ds_domain ds = doms) dss ->
  forall i details,
    plot_details dss i providers = Some details ->
    map dc_provider details = providers /\
    Forall (fun c => dc_labels c = doms /\
                     length (dc_heights c) = length doms /\
                     length (dc_whiskers c) = length doms) details.
Proof.
  intros Hdss. induction providers as [|p rest IH]; intros i details; simpl.
  - intros [= <-]. split; [reflexivity | constructor].
  - destruct (nth_error dss i) as [ds|] eqn:Hnth; [|discriminate].
    destruct (plot_details dss (S i) rest) as [charts|] eqn:Hrest;
      [|discriminate].
    intros [= <-]. destruct (IH _ _ Hrest) as [Hp Hall].
    simpl. rewrite Hp. split; [reflexivity|].
    constructor; [|exact Hall]. simpl.
    apply nth_error_In in Hnth. rewrite Forall_forall in Hdss.
    specialize (Hdss ds Hnth). rewrite Hdss, !length_map, <- Hdss, length_map.
    auto.
Qed.

Lemma raise_not_ok {A : Type} (run : result A * nat) (e : exn) (a : A)
  (k : nat) :
  fst run = Raise e -> run = (Ok a, k) -> False.
Proof. intros H ->. discriminate. Qed.

(** The three outcomes of [main]'s loop. *)
Lemma main_loop_trichotomy (t975 : nat -> R) (net : network)
  (providers doms : list string) (n : nat) (verbose : bool) (k : nat) :
  ((providers = [] \/
    (doms <> [] /\ (1 <= n)%nat /\ sweeps_succeed net providers doms n k)) /\
   exists st,
     main_loop t975 net providers doms n verbose [] [] k
       = (Ok st, (k + length providers * (n * length doms))%nat)) \/
  (providers <> [] /\ (doms = [] \/ n = 0%nat) /\
   fst (main_loop t975 net providers doms n verbose [] [] k)
     = Raise ZeroDivisionError) \/
  (providers <> [] /\ doms <> [] /\ (1 <= n)%nat /\
   ~ sweeps_succeed net providers doms n k /\
   fst (main_loop t975 net providers doms n verbose [] [] k)
     = Raise ValueError).
Proof.
  destruct providers as [|p rest].
  - left. split; [left; reflexivity|]. eexists. simpl. unfold ret.
    rewrite Nat.add_0_r. reflexivity.
  - destruct doms as [|d doms'].
    { right; left. split; [discriminate | split; [left; reflexivity|]].
      apply main_loop_cons_raise. reflexivity. }
    destruct n as [|n].
    { right; left. split; [discriminate | split; [right; reflexivity|]].
      apply main_loop_cons_raise. reflexivity. }
    destruct (main_loop_cases t975 net (d :: doms') (S n) verbose (p :: rest)
                ltac:(discriminate) ltac:(lia) [] [] k) as [Hall | [Hnot Hraise]].
    + left. split; [right; split; [discriminate | split; [lia | exact Hall]]|].
      destruct (main_loop_succeeds t975 net (d :: doms') (S n) verbose (p :: rest)
                  ltac:(discriminate) ltac:(lia) [] [] k Hall) as (rs & Hrun & _).
      eexists. exact Hrun.
    + right; right.
      split; [discriminate | split; [discriminate | split; [lia|]]].
      split; assumption.
Qed.

(** X14: the outcomes of [main]'s loop over the providers.  It completes
    exactly when there is no provider, or the domain list is not empty, at
    least one measurement is asked for and every attempt of every sweep
    answers.  Otherwise the first exception of [test_domains] ends the run:
    [ZeroDivisionError] for an empty domain list or zero measurements,
    [ValueError] as soon as one attempt fails; never [TypeError]. *)
Theorem main_loop_outcomes (t975 : nat -> R) (net : network)
  (providers doms : list string) (n : nat) (verbose : bool) (k : nat) :
  ((exists st k',
      main_loop t975 net providers doms n verbose [] [] k = (Ok st, k'))
     <-> providers = [] \/
         (doms <> [] /\ (1 <= n)%nat /\
          sweeps_succeed net providers doms n k)) /\
  (fst (main_loop t975 net providers doms n verbose [] [] k)
     = Raise ZeroDivisionError
     <-> providers <> [] /\ (doms = [] \/ n = 0%nat)) /\
  (fst (main_loop t975 net providers doms n verbose [] [] k)
     = Raise ValueError
     <-> doms <> [] /\ (1 <= n)%nat /\
         ~ sweeps_succeed net providers doms n k) /\
  fst (main_loop t975 net providers doms n verbose [] [] k)
    <> Raise TypeError.
Proof.
  destruct (main_loop_trichotomy t975 net providers doms n verbose k)
    as [[Hcond (st & Hrun)] | [(Hp & Hz & Hraise) | (Hp & Hd & Hn & Hnot & Hraise)]].
  - rewrite Hrun. simpl. split; [|split; [|split]].
    + split; [intros _; exact Hcond | intros _; eauto].
    + split; [discriminate|]. intros [Hp Hz].
      destruct Hcond as [-> | (Hd & Hn & _)]; [congruence|].
      destruct Hz as [-> | ->]; [congruence | lia].
    + split; [discriminate|]. intros (_ & _ & Hnot).
      destruct Hcond as [-> | (_ & _ & Hall)]; [destruct (Hnot I) | tauto].
    + discriminate.
  - rewrite Hraise. split; [|split; [|split]].
    + split.
      * intros (st & k' & Hrun). destruct (raise_not_ok _ _ _ _ Hraise Hrun).
      * intros [-> | (Hd & Hn & _)]; [congruence|].
        destruct Hz as [-> | ->]; [congruence | lia].
    + tauto.
    + split; [discriminate|]. intros (Hd & Hn & _).
      destruct Hz as [-> | ->]; [congruence | lia].
    + discriminate.
  - rewrite Hraise. split; [|split; [|split]].
    + split.
      * intros (st & k' & Hrun). destruct (raise_not_ok _ _ _ _ Hraise Hrun).
      * intros [-> | (_ & _ & Hall)]; [congruence | tauto].
    + split; [discriminate|]. intros [_ [-> | ->]]; [congruence | lia].
    + tauto.
    + discriminate.
Qed.

(** X15: when every sweep succeeds, [main]'s loop issues exactly
    [len(providers) * num_measurements * len(domains)] requests and collects
    one entry of [overall_stats] and one of [domain_stats] per provider;
    every [domain_stats] entry lists the configured domains in order. *)
Theorem main_loop_success (t975 : nat -> R) (net : network)
  (providers doms : list string) (n : nat) (verbose : bool) (k : nat) :
  doms <> [] -> (1 <= n)%nat ->
  sweeps_succeed net providers doms n k ->
  exists overall_stats domain_stats,
    main_loop t975 net providers doms n verbose [] [] k =
      (Ok (overall_stats, domain_stats),
       (k + length providers * (n * length doms))%nat) /\
    length overall_stats = length providers /\
    length domain_stats = length providers /\
    Forall (fun ds => map ds_domain ds = doms) domain_stats.
Proof.
  intros Hne Hn Hall.
  destruct (main_loop_succeeds t975 net doms n verbose providers Hne Hn [] [] k
              Hall) as (rs & Hrun & Hlen & Hrs).
  exists (map overall rs), (map per_domain rs).
  split; [exact Hrun|]. rewrite !length_map.
  split; [exact Hlen | split; [exact Hlen|]].
  apply Forall_map. exact Hrs.
Qed.

Lemma main_loop_success_witness :
  exists overall_stats domain_stats,
    main_loop t975_table always_up ["8.8.8.8"; "1.1.1.1"]
      ["google.com"; "apple.com"] 2 true [] [] 0%nat =
      (Ok (overall_stats, domain_stats),
       (0 + length ["8.8.8.8"; "1.1.1.1"]
            * (2 * length ["google.com"; "apple.com"]))%nat) /\
    length overall_stats = length ["8.8.8.8"; "1.1.1.1"] /\
    length domain_stats = length ["8.8.8.8"; "1.1.1.1"] /\
    Forall (fun ds => map ds_domain ds = ["google.com"; "apple.com"])
      domain_stats.
Proof.
  apply (main_loop_success t975_table always_up ["8.8.8.8"; "1.1.1.1"]
           ["google.com"; "apple.com"] 2 true 0).
  - discriminate.
  - lia.
  - simpl. repeat split; intros j _; discriminate.
Defined.

(** The data drawn from lists of the right shape. *)
Lemma plot_results_shape (providers doms : list string)
  (os : list stats) (dss : list (list domain_stat)) (verbose : bool) :
  length os = length providers ->
  length dss = length providers ->
  Forall (fun ds => map ds_domain ds = doms) dss ->
  exists chart details,
    plot_results providers os dss verbose = Some (chart, details) /\
    length (oc_labels chart) = length providers /\
    length (oc_heights chart) = length providers /\
    length (oc_yerr_below chart) = length providers /\
    length (oc_yerr_above chart) = length providers /\
    length (oc_whiskers chart) = length providers /\
    (verbose = true ->
       map dc_provider details = providers /\
       Forall (fun c => dc_labels c = doms /\
                        length (dc_heights c) = length doms /\
                        length (dc_whiskers c) = length doms) details) /\
    (verbose = false -> details = []).
Proof.
  intros Hos Hdss Hdoms.
  assert (Hdet : exists details, plot_details dss 0 providers = Some details).
  { destruct (plot_details dss 0 providers) as [details|] eqn:Hd; [eauto|].
    apply plot_details_none_iff in Hd. destruct Hd as [_ Hlt]. simpl in Hlt. lia. }
  destruct Hdet as (details & Hdet).
  exists (plot_overall providers os), (if verbose then details else []).
  split; [unfold plot_results; rewrite Hdet; destruct verbose; reflexivity|].
  unfold plot_overall; cbn [oc_labels oc_heights oc_yerr_below oc_yerr_above
                            oc_whiskers].
  rewrite !length_map.
  repeat (split; [assumption || reflexivity|]).
  split.
  - intros ->. exact (plot_details_some doms dss providers Hdoms 0 details Hdet).
  - intros ->. reflexivity.
Qed.

(** X16: the shape of what [main] hands to [plot_results].  When every
    sweep succeeds, the overall chart has one label, one bar, one pair of
    error-bar lengths and one whisker per provider; and in verbose mode there
    is one detail chart per provider, each with one bar and one whisker per
    configured domain, [domain_stats[i]] never being out of range. *)
Theorem plotted_data_well_formed (t975 : nat -> R) (net : network)
  (providers doms : list string) (n : nat) (verbose : bool) (k : nat) :
  doms <> [] -> (1 <= n)%nat ->
  sweeps_succeed net providers doms n k ->
  exists overall_stats domain_stats k' chart details,
    main_loop t975 net providers doms n verbose [] [] k
      = (Ok (overall_stats, domain_stats), k') /\
    plot_results providers overall_stats domain_stats verbose
      = Some (chart, details) /\
    length (oc_labels chart) = length providers /\
    length (oc_heights chart) = length providers /\
    length (oc_yerr_below chart) = length providers /\
    length (oc_yerr_above chart) = length providers /\
    length (oc_whiskers chart) = length providers /\
    (verbose = true ->
       map dc_provider details = providers /\
       Forall (fun c => dc_labels c = doms /\
                        length (dc_heights c) = length doms /\
                        length (dc_whiskers c) = length doms) details) /\
    (verbose = false -> details = []).
Proof.
  intros Hne Hn Hall.
  destruct (main_loop_succeeds t975 net doms n verbose providers Hne Hn [] [] k
              Hall) as (rs & Hrun & Hlen & Hrs).
  simpl in Hrun.
  destruct (plot_results_shape providers doms (map overall rs)
              (map per_domain rs) verbose) as (chart & details & H).
  - rewrite length_map; exact Hlen.
  - rewrite length_map; exact Hlen.
  - apply Forall_map. exact Hrs.
  - exists (map overall rs), (map per_domain rs). eexists.
    exists chart, details. split; [exact Hrun | exact H].
Qed.

Lemma plotted_data_well_formed_witness :
  exists overall_stats domain_stats k' chart details,
    main_loop t975_table always_up ["8.8.8.8"; "1.1.1.1"]
      ["google.com"; "apple.com"] 2 true [] [] 0%nat
      = (Ok (overall_stats, domain_stats), k') /\
    plot_results ["8.8.8.8"; "1.1.1.1"] overall_stats domain_stats true
      = Some (chart, details) /\
    length (oc_labels chart) = length ["8.8.8.8"; "1.1.1.1"] /\
    length (oc_heights chart) = length ["8.8.8.8"; "1.1.1.1"] /\
    length (oc_yerr_below chart) = length ["8.8.8.8"; "1.1.1.1"] /\
    length (oc_yerr_above chart) = length ["8.8.8.8"; "1.1.1.1"] /\
    length (oc_whiskers chart) = length ["8.8.8.8"; "1.1.1.1"] /\
    (true = true ->
       map dc_provider details = ["8.8.8.8"; "1.1.1.1"] /\
       Forall (fun c => dc_labels c = ["google.com"; "apple.com"] /\
                        length (dc_heights c)
                          = length ["google.com"; "apple.com"] /\
                        length (dc_whiskers c)
                          = length ["google.com"; "apple.com"]) details) /\
    (true = false -> details = []).
Proof.
  apply (plotted_data_well_formed t975_table always_up ["8.8.8.8"; "1.1.1.1"]
           ["google.com"; "apple.com"] 2 true 0).
  - discriminate.
  - lia.
  - simpl. repeat split; intros j _; discriminate.
Defined.

(** X17: [plot_results] fails (with [IndexError], at [domain_stats[i]])
    exactly when it is verbose and [domain_stats] has fewer entries than
    there are providers; without [verbose] it never fails. *)
Theorem plot_results_fails_iff (providers : list string)
  (overall_stats : list stats) (domain_stats : list (list domain_stat))
  (verbose : bool) :
  plot_results providers overall_stats domain_stats verbose = None <->
  verbose = true /\ (length domain_stats < length providers)%nat.
Proof.
  unfold plot_results. destruct verbose.
  - destruct (plot_details domain_stats 0 providers) as [details|] eqn:Hd.
    + split; [discriminate|]. intros [_ Hlt].
      assert (Hnone : plot_details domain_stats 0 providers = None).
      { apply plot_details_none_iff. split; [|simpl; exact Hlt].
        destruct providers; [simpl in Hlt; lia | discriminate]. }
      congruence.
    + split; [|reflexivity]. intros _.
      apply plot_details_none_iff in Hd. destruct Hd as [_ Hlt].
      split; [reflexivity | exact Hlt].
  - split; [discriminate | intros [H _]; discriminate].
Qed.

Lemma plotted_data_shape_of_main (t975 : nat -> R) (net : network)
  (verbose : bool) (k : nat) :
  sweeps_succeed net dns_providers domains num_measurements k ->
  exists chart details,
    main t975 net verbose k
      = (Ok (Some (chart, details)), (k + 12 * (50 * 17))%nat) /\
    length (oc_heights chart) = 12%nat /\
    (verbose = true ->
       length details = 12%nat /\
       Forall (fun c => length (dc_heights c) = 17%nat) details) /\
    (verbose = false -> details = []).
Proof.
  intros Hall.
  destruct (main_loop_succeeds t975 net domains num_measurements verbose
              dns_providers ltac:(discriminate)
              ltac:(unfold num_measurements; lia) [] [] k Hall)
    as (rs & Hrun & Hlen & Hrs).
  simpl app in Hrun.
  destruct (plot_results_shape dns_providers domains (map overall rs)
              (map per_domain rs) verbose)
    as (chart & details & Hplot & _ & Hbars & _ & _ & _ & Hv & Hnv).
  - rewrite length_map; exact Hlen.
  - rewrite length_map; exact Hlen.
  - apply Forall_map. exact Hrs.
  - exists chart, details. split; [|split; [exact Hbars | split; [|exact Hnv]]].
    + unfold main, bind. rewrite Hrun. unfold ret. cbn [fst snd].
      rewrite Hplot. reflexivity.
    + intros Hverb. destruct (Hv Hverb) as [Hp Hd]. split.
      * rewrite <- (length_map dc_provider), Hp. reflexivity.
      * revert Hd. apply Forall_impl. intros c (_ & Hh & _). exact Hh.
Qed.

(** X18: the script end to end, with its twelve providers, seventeen
    domains and fifty measurements.  Either every one of the
    [12 * (50 * 17)] attempts answers, and [main] draws the overall chart
    with twelve bars (and, if verbose, twelve detail charts of seventeen
    bars) after exactly that many requests; or some attempt fails, and
    [main] ends with [ValueError] and draws nothing. *)
Theorem main_end_to_end (t975 : nat -> R) (net : network) (verbose : bool)
  (k : nat) :
  (sweeps_succeed net dns_providers domains num_measurements k /\
   exists chart details,
     main t975 net verbose k
       = (Ok (Some (chart, details)), (k + 12 * (50 * 17))%nat) /\
     length (oc_heights chart) = 12%nat /\
     (verbose = true ->
        length details = 12%nat /\
        Forall (fun c => length (dc_heights c) = 17%nat) details) /\
     (verbose = false -> details = [])) \/
  (~ sweeps_succeed net dns_providers domains num_measurements k /\
   fst (main t975 net verbose k) = Raise ValueError).
Proof.
  destruct (main_loop_cases t975 net domains num_measurements verbose
              dns_providers ltac:(discriminate) ltac:(unfold num_measurements; lia)
              [] [] k) as [Hall | [Hnot Hraise]].
  - left. split; [exact Hall|].
    destruct (plotted_data_shape_of_main t975 net verbose k Hall)
      as (chart & details & H).
    exists chart, details. exact H.
  - right. split; [exact Hnot|].
    unfold main, bind.
    destruct (main_loop t975 net dns_providers domains num_measurements verbose
                [] [] k) as [[st|e] k']; simpl in Hraise; [discriminate|].
    injection Hraise as ->. reflexivity.
Qed.

(** * Rounding *)

(** C5, as stated, fails in binary64 on the positive samples
    [0.1, 0.1, 0.1]: the sum rounds up to 0.30000000000000004 and the mean
    to 0.10000000000000002, above the maximum 0.1. *)
Lemma mean_above_max_in_binary64 :
  b64_max [tenth; tenth; tenth] = Ok tenth /\
  b64_avg [tenth; tenth; tenth] 3 = Ok (0x1.999999999999bp-4)%float /\
  PrimFloat.ltb PrimFloat.zero tenth = true /\
  PrimFloat.ltb tenth (0x1.999999999999bp-4)%float = true.
Proof.
  repeat split; vm_compute; reflexivity.
Qed.

Lemma Rabs_le_both (x a : R) : Rabs x <= a -> - a <= x <= a.
Proof.
  unfold Rabs. destruct (Rcase_abs x); lra.
Qed.

Section Rounding.

(** The standard model of binary64 arithmetic.  [F] holds of the
    representable numbers and [rnd] rounds to them; [u] is the unit roundoff
    ([2^-53]), [hi] the largest finite number and [lo] the smallest normal
    one ([2^-1022]).  A sum of two representable numbers is rounded with a
    relative error of at most [u] as long as it does not overflow (below
    [lo] it is exact); any other result is, as long as it neither
    overflows nor underflows. *)
Variable rnd : R -> R.
Variable F : R -> Prop.
Variables u lo hi : R.
Hypothesis u_range : 0 <= u <= 1 / 8.
Hypothesis rnd_add :
  forall x y, F x -> F y -> Rabs (x + y) <= hi ->
    Rabs (rnd (x + y) - (x + y)) <= u * Rabs (x + y).
Hypothesis rnd_op :
  forall x, lo <= Rabs x <= hi -> Rabs (rnd x - x) <= u * Rabs x.
Hypothesis rnd_F : forall x, F (rnd x).
Hypothesis F_0 : F 0.
Hypothesis F_opp : forall x, F x -> F (- x).

Lemma rnd_add_nonneg (x y : R) :
  F x -> F y -> 0 <= x + y <= hi ->
  (1 - u) * (x + y) <= rnd (x + y) <= (1 + u) * (x + y).
Proof using rnd_add.
  intros Hx Hy [H0 Hhi].
  pose proof (rnd_add x y Hx Hy) as H.
  rewrite (Rabs_pos_eq (x + y)) in H by exact H0.
  specialize (H Hhi). apply Rabs_le_both in H. lra.
Qed.

Lemma pow_1u_ge_1 (k : nat) : 1 <= (1 + u) ^ k.
Proof using u_range. apply pow_R1_Rle. lra. Qed.

Lemma pow_1u_le_1 (k : nat) : 0 <= (1 - u) ^ k <= 1.
Proof using u_range.
  split; [apply pow_le; lra|].
  apply Rle_trans with (1 ^ k); [apply pow_incr; lra | rewrite pow1; lra].
Qed.

Lemma u_scale (x : R) : 0 <= x -> 0 <= u * x <= x / 8.
Proof using u_range.
  intros Hx. split; [apply Rmult_le_pos; lra|].
  replace (x / 8) with (1 / 8 * x) by field.
  apply Rmult_le_compat_r; lra.
Qed.

(** The rounded sum of positive numbers, against the exact one. *)
Lemma fl_sum_bounds (xs : list R) :
  forall acc,
    F acc -> 0 <= acc ->
    Forall (fun x => 0 < x /\ F x) xs ->
    (1 + u) ^ length xs * (acc + py_sum xs) <= hi ->
    (1 - u) ^ length xs * (acc + py_sum xs)
      <= fold_left (fun a x => rnd (a + x)) xs acc
      <= (1 + u) ^ length xs * (acc + py_sum xs).
Proof using u_range rnd_add rnd_F.
  induction xs as [|x tl IH]; intros acc Hacc H0 Hxs Hhi.
  - simpl. rewrite py_sum_nil. lra.
  - inversion Hxs as [|? ? [Hx HFx] Htl]; subst.
    assert (HT : 0 <= py_sum tl).
    { apply py_sum_nonneg. revert Htl. apply Forall_impl. intros y [Hy _]. lra. }
    rewrite py_sum_cons in *. cbn [length fold_left] in *.
    set (k := length tl) in *.
    pose proof (pow_1u_ge_1 k) as Hp. pose proof (pow_1u_le_1 k) as Hq.
    rewrite <- !tech_pow_Rmult in *.
    set (P := (1 + u) ^ k) in *. set (Q := (1 - u) ^ k) in *.
    set (T := py_sum tl) in *.
    assert (HuT : 0 <= u * T) by (apply Rmult_le_pos; lra).
    assert (HV : 0 <= acc + x + T) by lra.
    assert (HPP : 1 <= (1 + u) * P) by nra.
    assert (He : 0 <= acc + x <= hi).
    { split; [lra|].
      apply Rle_trans with ((1 + u) * P * (acc + (x + T))); [|exact Hhi].
      replace (acc + (x + T)) with (acc + x + T) by ring.
      set (PP := (1 + u) * P) in *. nra. }
    pose proof (rnd_add_nonneg acc x Hacc HFx He) as Hr.
    set (r := rnd (acc + x)) in *.
    assert (Hr0 : 0 <= r) by nra.
    assert (Hup1 : r + T <= (1 + u) * (acc + x + T)) by nra.
    assert (Hlo1 : (1 - u) * (acc + x + T) <= r + T) by nra.
    assert (Hhi' : P * (r + T) <= hi).
    { apply Rle_trans with ((1 + u) * P * (acc + (x + T))); [|exact Hhi].
      replace ((1 + u) * P * (acc + (x + T)))
        with (P * ((1 + u) * (acc + x + T))) by ring.
      apply Rmult_le_compat_l; lra. }
    pose proof (IH r (rnd_F _) Hr0 Htl Hhi') as [Hlo' Hup'].
    split.
    + apply Rle_trans with (Q * (r + T)); [|exact Hlo'].
      replace ((1 - u) * Q * (acc + (x + T)))
        with (Q * ((1 - u) * (acc + x + T))) by ring.
      apply Rmult_le_compat_l; lra.
    + apply Rle_trans with (P * (r + T)); [exact Hup'|].
      replace ((1 + u) * P * (acc + (x + T)))
        with (P * ((1 + u) * (acc + x + T))) by ring.
      apply Rmult_le_compat_l; lra.
Qed.

(** C5, as the code has it: for at least two positive binary64 samples,
    when the sum does not overflow and the mean does not underflow, the
    mean that the aggregator computes lies between the minimum and the
    maximum up to the accumulated rounding error of the [N] additions and
    the division: [(1-u)^(N+1) * min <= mean <= (1+u)^(N+1) * max]. *)
Theorem mean_between_min_and_max_up_to_rounding
  (samples : list R) (min_time max_time : R) :
  (2 <= length samples)%nat ->
  Forall (fun x => 0 < x /\ F x) samples ->
  py_min samples = Ok min_time ->
  py_max samples = Ok max_time ->
  lo <= (1 - u) ^ length samples * min_time ->
  (1 + u) ^ length samples * (INR (length samples) * max_time) <= hi ->
  exists avg_time,
    fl_avg rnd samples (length samples) = Ok avg_time /\
    (1 - u) ^ (length samples + 1) * min_time <= avg_time /\
    avg_time <= (1 + u) ^ (length samples + 1) * max_time.
Proof using u_range rnd_add rnd_op rnd_F F_0.
  intros Hlen Hxs Hmin Hmax Hlo Hhi.
  set (n := length samples) in *.
  unfold fl_avg. destruct (Nat.eqb_spec n 0) as [H0 | _]; [lia|].
  eexists. split; [reflexivity|].
  pose proof (py_sum_lower _ _ (py_min_lower _ _ Hmin)) as Hsl.
  pose proof (py_sum_upper _ _ (py_max_upper _ _ Hmax)) as Hsu.
  fold n in Hsl, Hsu.
  assert (Hn : 1 <= INR n) by (change 1 with (INR 1); apply le_INR; lia).
  assert (Hmn : 0 < min_time).
  { destruct samples as [|x tl]; [discriminate|].
    simpl in Hmin. injection Hmin as <-.
    pose proof (fold_left_Rmin_in tl x) as Hin.
    rewrite Forall_forall in Hxs. apply (Hxs _ Hin). }
  pose proof (pow_1u_ge_1 n) as Hp. pose proof (pow_1u_le_1 n) as Hq.
  assert (Hsum : (1 - u) ^ n * (0 + py_sum samples)
                   <= fl_sum rnd samples
                   <= (1 + u) ^ n * (0 + py_sum samples)).
  { apply fl_sum_bounds; [exact F_0 | lra | exact Hxs|].
    fold n. apply Rle_trans with ((1 + u) ^ n * (INR n * max_time)); [|exact Hhi].
    apply Rmult_le_compat_l; lra. }
  rewrite Rplus_0_l in Hsum.
  set (S := fl_sum rnd samples) in *. set (E := py_sum samples) in *.
  set (P := (1 + u) ^ n) in *. set (Q := (1 - u) ^ n) in *.
  assert (Hinv : 0 < / INR n <= 1).
  { split; [apply Rinv_0_lt_compat; lra|].
    rewrite <- Rinv_1. apply Rinv_le_contravar; lra. }
  set (i := / INR n) in *.
  assert (Hi : i * INR n = 1) by (unfold i; apply Rinv_l; lra).
  assert (Hq1 : Q * min_time <= S * i).
  { apply Rle_trans with (Q * E * i); [|nra].
    replace (Q * min_time) with (Q * (INR n * min_time) * i)
      by (rewrite <- (Rmult_1_r (Q * min_time)), <- Hi; ring).
    apply Rmult_le_compat_r; [lra|]. apply Rmult_le_compat_l; lra. }
  assert (Hq2 : S * i <= P * max_time).
  { apply Rle_trans with (P * E * i); [nra|].
    replace (P * max_time) with (P * (INR n * max_time) * i)
      by (rewrite <- (Rmult_1_r (P * max_time)), <- Hi; ring).
    apply Rmult_le_compat_r; [lra|]. apply Rmult_le_compat_l; lra. }
  assert (Hmx : 0 < max_time) by nra.
  assert (Hrange : lo <= Rabs (S * i) <= hi).
  { rewrite Rabs_pos_eq by nra. split; [lra|].
    apply Rle_trans with (P * max_time); [exact Hq2|].
    apply Rle_trans with (P * (INR n * max_time)); [|exact Hhi].
    apply Rmult_le_compat_l; [lra | nra]. }
  pose proof (rnd_op _ Hrange) as Hr.
  rewrite (Rabs_pos_eq (S * i)) in Hr by nra.
  apply Rabs_le_both in Hr.
  unfold Rdiv. fold i.
  replace (n + 1)%nat with (Datatypes.S n) by lia.
  rewrite <- !tech_pow_Rmult. fold P Q.
  split; nra.
Qed.

(** C6, as the code has it: whenever the computed standard error is
    positive, so that the interval is finite, and nothing overflows or
    underflows, [mean - low] and [high - mean] agree within floating-point
    tolerance: they differ by at most [(5 u + tau) * (|mean| + h + h')],
    where [h] and [h'] are the two exact half-widths [t * std_err] and
    [tau] bounds the relative difference between SciPy's two quantiles. *)
Theorem interval_symmetric_within_tolerance
  (t025 t975 : nat -> R) (tau : R) (df : nat) (avg_time se : R) :
  (1 <= df)%nat ->
  F avg_time ->
  0 < se ->
  t025 df < 0 < t975 df ->
  Rabs (t025 df + t975 df) <= tau * t975 df ->
  lo <= t975 df * se ->
  lo <= - (t025 df * se) ->
  2 * (Rabs avg_time + t975 df * se + - (t025 df * se)) <= hi ->
  exists low high,
    fl_interval rnd t025 t975 df avg_time (Fin se) = (Fin low, Fin high) /\
    np_close
      ((5 * u + tau) * (Rabs avg_time + t975 df * se + - (t025 df * se)))
      (fl_sub rnd (Fin avg_time) (Fin low))
      (fl_sub rnd (Fin high) (Fin avg_time)).
Proof using u_range rnd_add rnd_op rnd_F F_opp.
  intros Hdf HFm Hse [Htlo Hthi] Hsym Hloa Hlob Hov.
  unfold fl_interval. destruct (Nat.ltb_spec 0 df); [|lia].
  destruct (Rlt_dec 0 se); [|contradiction].
  eexists. eexists. split; [reflexivity|].
  cbn [fl_sub np_close].
  assert (Hab : Rabs (t025 df * se + t975 df * se) <= tau * (t975 df * se)).
  { replace (t025 df * se + t975 df * se) with ((t025 df + t975 df) * se) by ring.
    rewrite Rabs_mult, (Rabs_pos_eq se) by lra.
    replace (tau * (t975 df * se)) with (tau * t975 df * se) by ring.
    apply Rmult_le_compat_r; lra. }
  assert (Ha0 : 0 < t975 df * se) by (apply Rmult_lt_0_compat; lra).
  assert (Hb0 : t025 df * se < 0).
  { replace (t025 df * se) with (- (- t025 df * se)) by ring.
    apply Ropp_lt_gt_0_contravar. apply Rmult_lt_0_compat; lra. }
  assert (Htau : 0 <= tau).
  { pose proof (Rabs_pos (t025 df + t975 df)) as Hpos.
    destruct (Rle_dec 0 tau) as [Hle | Hgt]; [exact Hle|].
    exfalso. assert (tau * t975 df < 0); [|lra].
    replace (tau * t975 df) with (- (- tau * t975 df)) by ring.
    apply Ropp_lt_gt_0_contravar. apply Rmult_lt_0_compat; lra. }
  set (a := t975 df * se) in *. set (b := t025 df * se) in *.
  set (m := avg_time) in *.
  pose proof (Rabs_le_both m (Rabs m) (Rle_refl _)) as HM.
  pose proof (Rabs_pos m) as HM0.
  set (M := Rabs m) in *.
  set (W := M + a + - b) in *.
  assert (HW0 : 0 < W) by (unfold W; lra).
  pose proof (u_scale W (Rlt_le _ _ HW0)) as HuW.
  (* the two products *)
  assert (Hpa : Rabs (rnd a - a) <= u * a).
  { rewrite <- (Rabs_pos_eq a) at 3 by lra. apply rnd_op.
    rewrite Rabs_pos_eq by lra. unfold W in Hov. lra. }
  assert (Hpb : Rabs (rnd b - b) <= u * - b).
  { rewrite <- (Rabs_left b) by lra. apply rnd_op.
    rewrite Rabs_left by lra. unfold W in Hov. lra. }
  apply Rabs_le_both in Hpa. apply Rabs_le_both in Hpb.
  set (pa := rnd a) in *. set (pb := rnd b) in *.
  pose proof (u_scale a (Rlt_le _ _ Ha0)) as Hua.
  assert (Hnb0 : 0 <= - b) by lra.
  pose proof (u_scale (- b) Hnb0) as Hub.
  (* the two sums with the mean *)
  set (B1 := a + u * a + M). set (B1' := - b + u * - b + M).
  assert (HB1 : Rabs (pa + m) <= B1) by (apply Rabs_le; unfold B1; lra).
  assert (HB1' : Rabs (pb + m) <= B1') by (apply Rabs_le; unfold B1'; lra).
  assert (HB1W : B1 <= 9 / 8 * W /\ B1' <= 9 / 8 * W /\ B1 + B1' <= 17 / 8 * W)
    by (unfold B1, B1', W in *; lra).
  destruct HB1W as (HB1W & HB1W' & HB1s).
  assert (HB10 : 0 <= B1 /\ 0 <= B1') by (unfold B1, B1'; lra).
  assert (HH : Rabs (rnd (pa + m) - (pa + m)) <= u * B1).
  { apply Rle_trans with (u * Rabs (pa + m)).
    - apply rnd_add; [apply rnd_F | exact HFm | lra].
    - apply Rmult_le_compat_l; lra. }
  assert (HL : Rabs (rnd (pb + m) - (pb + m)) <= u * B1').
  { apply Rle_trans with (u * Rabs (pb + m)).
    - apply rnd_add; [apply rnd_F | exact HFm | lra].
    - apply Rmult_le_compat_l; lra. }
  apply Rabs_le_both in HH. apply Rabs_le_both in HL.
  set (high := rnd (pa + m)) in *. set (low := rnd (pb + m)) in *.
  pose proof (u_scale B1 (proj1 HB10)) as HuB1.
  pose proof (u_scale B1' (proj2 HB10)) as HuB1'.
  (* the two differences from the mean *)
  set (B2 := a + u * a + u * B1). set (B2' := - b + u * - b + u * B1').
  assert (HB2 : Rabs (high + - m) <= B2) by (apply Rabs_le; unfold B2; lra).
  assert (HB2' : Rabs (m + - low) <= B2') by (apply Rabs_le; unfold B2'; lra).
  assert (HB2W : 0 <= B2 /\ 0 <= B2' /\ B2 <= 2 * W /\ B2' <= 2 * W /\
                 B2 + B2' <= 89 / 64 * W)
    by (unfold B2, B2', W in *; lra).
  destruct HB2W as (HB20 & HB20' & HB2W & HB2W' & HB2s).
  assert (Hd2 : Rabs (rnd (high + - m) - (high + - m)) <= u * B2).
  { apply Rle_trans with (u * Rabs (high + - m)).
    - apply rnd_add; [apply rnd_F | apply F_opp, HFm | lra].
    - apply Rmult_le_compat_l; lra. }
  assert (Hd1 : Rabs (rnd (m + - low) - (m + - low)) <= u * B2').
  { apply Rle_trans with (u * Rabs (m + - low)).
    - apply rnd_add; [exact HFm | apply F_opp, rnd_F | lra].
    - apply Rmult_le_compat_l; lra. }
  apply Rabs_le_both in Hd2. apply Rabs_le_both in Hd1.
  apply Rabs_le_both in Hab.
  unfold Rminus at 1 2 3.
  set (d1 := rnd (m + - low)) in *. set (d2 := rnd (high + - m)) in *.
  assert (Htot : u * B2 + u * B2' + u * B1 + u * B1' + u * a + u * - b
                   <= 5 * (u * W)).
  { replace (u * B2 + u * B2' + u * B1 + u * B1' + u * a + u * - b)
      with (u * (B2 + B2' + (B1 + B1') + (a + - b))) by ring.
    replace (5 * (u * W)) with (u * (5 * W)) by ring.
    apply Rmult_le_compat_l; [lra|]. unfold W in *. lra. }
  assert (HtauW : tau * a <= tau * W) by (apply Rmult_le_compat_l; unfold W; lra).
  replace ((5 * u + tau) * W) with (5 * (u * W) + tau * W) by ring.
  apply Rabs_le. lra.
Qed.

End Rounding.

(** ** A concrete rounding *)

Lemma coarse_rnd_error (x : R) :
  Rabs (coarse_rnd x - x) <= 1 / 16 * Rabs x.
Proof.
  unfold coarse_rnd. replace (x * (1 + / 16) - x) with (1 / 16 * x) by field.
  rewrite Rabs_mult, (Rabs_pos_eq (1 / 16)) by lra. lra.
Qed.

Lemma mean_between_min_and_max_up_to_rounding_witness :
  exists avg_time,
    fl_avg coarse_rnd [10; 20; 30] (length [10; 20; 30]) = Ok avg_time /\
    (1 - 1 / 16) ^ (length [10; 20; 30] + 1) * 10 <= avg_time /\
    avg_time <= (1 + 1 / 16) ^ (length [10; 20; 30] + 1) * 30.
Proof.
  apply (mean_between_min_and_max_up_to_rounding coarse_rnd (fun _ => True)
           (1 / 16) 1 1000).
  - lra.
  - intros x y _ _ _. apply coarse_rnd_error.
  - intros x _. apply coarse_rnd_error.
  - intros x. exact I.
  - exact I.
  - simpl; lia.
  - repeat constructor; lra.
  - simpl. f_equal. unfold Rmin.
    repeat (destruct (Rle_dec _ _); try lra).
  - simpl. f_equal. unfold Rmax.
    repeat (destruct (Rle_dec _ _); try lra).
  - simpl. lra.
  - simpl. lra.
Defined.

Lemma interval_symmetric_within_tolerance_witness :
  exists low high,
    fl_interval coarse_rnd (fun df => - t975_table df) t975_table 4 30 (Fin 7)
      = (Fin low, Fin high) /\
    np_close
      ((5 * (1 / 16) + 0)
       * (Rabs 30 + t975_table 4 * 7 + - (- t975_table 4 * 7)))
      (fl_sub coarse_rnd (Fin 30) (Fin low))
      (fl_sub coarse_rnd (Fin high) (Fin 30)).
Proof.
  apply (interval_symmetric_within_tolerance coarse_rnd (fun _ => True)
           (1 / 16) 1 1000).
  - lra.
  - intros x y _ _ _. apply coarse_rnd_error.
  - intros x _. apply coarse_rnd_error.
  - intros x. exact I.
  - intros x _. exact I.
  - lia.
  - exact I.
  - lra.
  - simpl. lra.
  - replace (- t975_table 4 + t975_table 4) with 0 by ring.
    rewrite Rabs_R0. simpl. lra.
  - simpl. lra.
  - simpl. lra.
  - rewrite (Rabs_pos_eq 30) by lra. simpl. lra.
Defined.

(** C6, as stated, fails on the samples [5, 5], on which the arithmetic is
    exact: the standard error is 0, both bounds are [nan], and no tolerance
    makes [mean - low] and [high - mean] agree. *)
Lemma interval_of_identical_samples_not_close :
  exists s,
    aggregate t975_table [5; 5] 2 = Ok s /\
    ci s = (NaN, NaN) /\
    forall tol,
      ~ np_close tol (np_sub (Fin (avg s)) (fst (ci s)))
                     (np_sub (snd (ci s)) (Fin (avg s))).
Proof.
  destruct (aggregate_identical t975_table 5 [5; 5]) as (s & Hagg & _ & Hci).
  - simpl; lia.
  - repeat constructor.
  - exists s; split; [exact Hagg | split; [exact Hci|]].
    intros tol. rewrite Hci. simpl. tauto.
Qed.



(** ** The mean and its interval *)

Section MonotoneRounding.

(** Rounding to nearest is monotone and leaves the representable numbers
    ([F]) unchanged. *)
Variable rnd : R -> R.
Variable F : R -> Prop.
Hypothesis rnd_mono : forall x y, x <= y -> rnd x <= rnd y.
Hypothesis rnd_id : forall x, F x -> rnd x = x.
Hypothesis F_0 : F 0.


End MonotoneRounding.

